(** * extbpy: platform registry, wheel filtering and manifest rewriting

    A shallow embedding of [src/extbpy/platforms.py] and of the parts of
    [src/extbpy/builder.py] that decide which wheels are downloaded, which
    are kept, what is written to [blender_manifest.toml], which temporary
    files are removed, and how [build] strings these steps together.

    Conventions.
    - Python [str] is [string] (a list of bytes).  Ordering is bytewise,
      which for UTF-8 text is code-point order, the order of Python's [<].
      [str.lower] is modelled on the ASCII letters only.
    - An exception is a value of [exn]; a call that may raise returns a
      [result].
    - A directory is the list of the names of its entries, in the order in
      which the operating system enumerates them. *)

From Stdlib Require Import Ascii String NArith Permutation.
From stdpp Require Import base decidable option list sorting gmap strings.

(** ** Python string methods *)

Module Str.

Definition lower_ascii (c : ascii) : ascii :=
  let n := N_of_ascii c in
  if ((65 <=? n) && (n <=? 90))%N then ascii_of_N (n + 32) else c.

(** [s.lower()] *)
Fixpoint lower (s : string) : string :=
  match s with
  | EmptyString => EmptyString
  | String c s' => String (lower_ascii c) (lower s')
  end.

(** [s.startswith(p)] *)
Fixpoint startswith (p s : string) : bool :=
  match p, s with
  | EmptyString, _ => true
  | String _ _, EmptyString => false
  | String a p', String b s' => if decide (a = b) then startswith p' s' else false
  end.

(** [s.endswith(suf)] *)
Fixpoint endswith (suf s : string) : bool :=
  if decide (s = suf) then true
  else match s with
       | EmptyString => false
       | String _ s' => endswith suf s'
       end.

(** [needle in hay] *)
Fixpoint contains (needle hay : string) : bool :=
  startswith needle hay ||
  match hay with
  | EmptyString => false
  | String _ hay' => contains needle hay'
  end.

(** [sep.join(l)] *)
Fixpoint join (sep : string) (l : list string) : string :=
  match l with
  | [] => ""
  | [x] => x
  | x :: l' => x +:+ sep +:+ join sep l'
  end.

(** [s.replace(old, new)]: every non-overlapping occurrence, scanning from
    the left.  [skip] counts the characters of a matched occurrence that
    are still to be dropped. *)
Fixpoint replace_from (old new : string) (skip : nat) (s : string) : string :=
  match s with
  | EmptyString =>
      match old with EmptyString => new | _ => EmptyString end
  | String c s' =>
      match skip with
      | S k => replace_from old new k s'
      | O =>
          if startswith old s then
            match old with
            | EmptyString => new +:+ String c (replace_from old new 0 s')
            | String _ old' =>
                new +:+ replace_from old new (String.length old') s'
            end
          else String c (replace_from old new 0 s')
      end
  end.

Definition replace (old new s : string) : string := replace_from old new 0 s.

(** [s.removesuffix(suf)] *)
Fixpoint removesuffix (suf s : string) : string :=
  if decide (s = suf) then EmptyString
  else match s with
       | EmptyString => EmptyString
       | String c s' => String c (removesuffix suf s')
       end.

(** [s.rsplit(sep, 1)[-1]] for a one-character [sep]: what follows the last
    [sep], the whole of [s] when there is none. *)
Fixpoint rsplit_last (sep : ascii) (s : string) : string :=
  match s with
  | EmptyString => EmptyString
  | String c s' =>
      if contains (String sep EmptyString) s' then rsplit_last sep s'
      else if decide (c = sep) then s'
      else s
  end.

(** [s[-1]], [None] for the empty string. *)
Fixpoint last_char (s : string) : option ascii :=
  match s with
  | EmptyString => None
  | String c EmptyString => Some c
  | String _ s' => last_char s'
  end.

(** [s.partition(needle)[2]] when [needle] occurs in [s]. *)
Fixpoint partition_tail (needle s : string) : option string :=
  if startswith needle s then Some (String.substring (String.length needle)
                                      (String.length s) s)
  else match s with
       | EmptyString => None
       | String _ s' => partition_tail needle s'
       end.

End Str.

(** ** Exceptions ([extbpy.exceptions]) and results *)

Inductive exn : Type :=
  | PlatformError (msg : string)
  | ConfigurationError (msg : string)
  | DependencyError (msg : string)
  | BuildError (msg : string)
  | BlenderError (msg : string)
  | FileNotFoundError (path : string)
  | KeyError (key : string).

Inductive result (A : Type) : Type :=
  | Ok (a : A)
  | Raise (e : exn).
Arguments Ok {A} a.
Arguments Raise {A} e.

Definition is_ConfigurationError (e : exn) : bool :=
  match e with ConfigurationError _ => true | _ => false end.

(** ** [platforms.py] *)

Module platforms.

(** [@dataclass class Platform] *)
Record Platform : Type := mkPlatform {
  name : string;
  pypi_suffix : string;
  metadata : string;
}.

(** A Python [dict] with string keys: insertion-ordered, keys unique. *)
Definition registry : Type := list (string * Platform).

(** The value of the module global [PLATFORMS] after import. *)
Definition PLATFORMS : registry :=
  [ ("windows-x64",
      mkPlatform "windows-x64" "win_amd64" "windows-x64");
    ("linux-x64",
      mkPlatform "linux-x64" "manylinux2014_x86_64" "linux-x64");
    ("macos-arm64",
      mkPlatform "macos-arm64" "macosx_12_0_arm64" "macos-arm64");
    ("macos-x64",
      mkPlatform "macos-x64" "macosx_10_16_x86_64" "macos-x64") ].

(** [d.keys()] *)
Definition keys (d : registry) : list string := d.*1.

(** [d[k]], [None] standing for [KeyError]. *)
Fixpoint getitem (d : registry) (k : string) : option Platform :=
  match d with
  | [] => None
  | (k', p) :: d' => if decide (k = k') then Some p else getitem d' k
  end.

(** The functions of the module read the global [PLATFORMS]; each takes the
    current value of the global and returns it next to its result, so that
    a write to the global would show. *)
Definition Reg (A : Type) : Type := registry → result A * registry.

Definition ret {A} (a : A) : Reg A := λ g, (Ok a, g).
Definition raise {A} (e : exn) : Reg A := λ g, (Raise e, g).
Definition bind {A B} (k : A → Reg B) (m : Reg A) : Reg B :=
  λ g, match m g with
       | (Ok a, g') => k a g'
       | (Raise e, g') => (Raise e, g')
       end.
Definition read_PLATFORMS : Reg registry := λ g, (Ok g, g).

#[local] Instance Reg_ret : MRet Reg := @ret.
#[local] Instance Reg_bind : MBind Reg := @bind.

(** [def get_platform(name)] *)
Definition get_platform (name : string) : Reg Platform :=
  g ← read_PLATFORMS ;
  if decide (name ∈ keys g) then
    match getitem g name with
    | Some p => ret p
    | None => raise (KeyError name)
    end
  else
    let available := Str.join ", " (keys g) in
    raise (PlatformError
             ("Unsupported platform '" +:+ name +:+ "'. Available: "
                +:+ available)).

(** [def get_platforms(names)]: [[get_platform(name) for name in names]] *)
Fixpoint get_platforms (names : list string) : Reg (list Platform) :=
  match names with
  | [] => ret []
  | n :: names' =>
      p ← get_platform n ;
      ps ← get_platforms names' ;
      ret (p :: ps)
  end.

(** [def list_available_platforms()] *)
Definition list_available_platforms : Reg (list string) :=
  g ← read_PLATFORMS ; ret (keys g).

(** [def detect_current_platform()].  [system] and [machine] are what
    [platform.system()] and [platform.machine()] return on the host. *)
Definition detect_current_platform (system machine : string)
  : Reg (list string) :=
  let system := Str.lower system in
  let machine := Str.lower machine in
  if decide (system = "darwin") then
    if decide (machine ∈ ["arm64"; "aarch64"]) then ret ["macos-arm64"]
    else ret ["macos-x64"]
  else if decide (system = "linux") then
    if decide (machine ∈ ["x86_64"; "amd64"]) then ret ["linux-x64"]
    else raise (PlatformError
                  ("Unsupported Linux architecture: " +:+ machine))
  else if decide (system = "windows") then
    if decide (machine ∈ ["x86_64"; "amd64"]) then ret ["windows-x64"]
    else raise (PlatformError
                  ("Unsupported Windows architecture: " +:+ machine))
  else raise (PlatformError ("Unsupported operating system: " +:+ system)).

(** *** The wheel matcher *)

(** Modelled from the spec: [match_wheel_to_platforms] is imported from
    [extbpy.platforms] by [tests/test_platforms.py] but its definition is
    not part of the source file.  The model follows section 4.2 of the
    specification, reading the platform tag as the last [-]-separated
    field of the file name without its [.whl] extension (section 6), and
    testing the cases in the order in which the specification lists them.
    The parenthetical "or a Windows tag" names no tag and is left out. *)
Definition platform_tag (filename : string) : string :=
  Str.rsplit_last "-" (Str.removesuffix ".whl" filename).

(** Modelled from the spec: a tag matching the pattern
    [manylinux*_x86_64]. *)
Definition has_manylinux_x86_64 (tag : string) : bool :=
  match Str.partition_tail "manylinux" tag with
  | Some rest => Str.contains "_x86_64" rest
  | None => false
  end.

(** Modelled from the spec: the wheel matcher of section 4.2 (see
    [platform_tag]). *)
Definition match_wheel_to_platforms (filename : string) : Reg (list string) :=
  let tag := platform_tag filename in
  if decide (tag = "any") then list_available_platforms
  else if Str.contains "win_amd64" tag then ret ["windows-x64"]
  else if has_manylinux_x86_64 tag then ret ["linux-x64"]
  else if Str.contains "macosx" tag then
    if Str.endswith "x86_64" tag then ret ["macos-x64"]
    else if Str.endswith "arm64" tag then ret ["macos-arm64"]
    else if Str.endswith "universal2" tag then ret ["macos-x64"; "macos-arm64"]
    else ret []
  else ret [].

(** The specification's reading of auto-detection, for comparison with
    [detect_current_platform]: the registry entry that matches the host,
    if there is one.  The metadata strings name the operating system and
    the 64-bit architecture of each entry. *)
Definition spec_matching_platform (system machine : string) : option string :=
  let system := Str.lower system in
  let machine := Str.lower machine in
  if decide (system = "darwin") then
    if decide (machine ∈ ["arm64"; "aarch64"]) then Some "macos-arm64"
    else if decide (machine ∈ ["x86_64"; "amd64"]) then Some "macos-x64"
    else None
  else if decide (system = "linux") then
    if decide (machine ∈ ["x86_64"; "amd64"]) then Some "linux-x64" else None
  else if decide (system = "windows") then
    if decide (machine ∈ ["x86_64"; "amd64"]) then Some "windows-x64" else None
  else None.

(** What a caller sees: the result of an operation run on the registry as
    it is after import. *)
Definition call {A} (m : Reg A) : result A := (m PLATFORMS).1.

End platforms.

(** ** [builder.py] *)

Module builder.
Import platforms.

(** *** Project layout on disk *)

(** An entry of the source directory: a file, or a directory given by the
    names of its own entries. *)
Inductive node : Type :=
  | File
  | Dir (children : list string).

(** What [source_dir] points at: nothing, something that is not a
    directory, or a directory with its entries in [iterdir()] order. *)
Inductive source : Type :=
  | Missing
  | NotADirectory
  | Tree (entries : list (string * node)).

Definition is_dir (n : node) : bool :=
  match n with Dir _ => true | File => false end.

(** [Path.exists()] of [source_dir] *)
Definition source_exists (fs : source) : bool :=
  match fs with Missing => false | _ => true end.

(** [(source_dir / child).exists()] *)
Definition child_exists (fs : source) (child : string) : bool :=
  match fs with
  | Tree entries => bool_decide (child ∈ entries.*1)
  | _ => false
  end.

(** [(source_dir / child).is_dir()] *)
Definition child_is_dir (fs : source) (child : string) : bool :=
  match fs with
  | Tree entries =>
      match list_find (λ e, e.1 = child) entries with
      | Some (_, e) => is_dir e.2
      | None => false
      end
  | _ => false
  end.

(** [(item / "blender_manifest.toml").exists()] for an entry [item] *)
Definition has_manifest (n : node) : bool :=
  match n with
  | Dir children => bool_decide ("blender_manifest.toml" ∈ children)
  | File => false
  end.

(** [a / b] on paths *)
Definition joinpath (a b : string) : string := a +:+ "/" +:+ b.

(** *** [pyproject.toml] *)

(** The [project] table as [tomlkit.parse] returns it. *)
Record project_table : Type := mkProject {
  p_name : option string;
  p_version : option string;
  p_dependencies : option (list string);
}.

Record pyproject : Type := mkPyproject {
  project : option project_table;
  tool_extbpy_platforms : option (list string);
}.

(** What opening and parsing [pyproject.toml] does: the file is gone, or
    reading or parsing raises an exception printing as [msg], or a
    document comes back. *)
Inductive parse_outcome : Type :=
  | NotFound
  | Failed (msg : string)
  | Parsed (doc : pyproject).

(** [self.project_config], once [_load_project_config] has put a
    [dependencies] list in place. *)
Record config : Type := mkConfig {
  cfg_name : option string;
  cfg_version : option string;
  dependencies : list string;
  configured_platforms : option (list string);
}.

(** *** The builder object *)

Record ExtensionBuilder : Type := mkBuilder {
  source_dir : string;
  output_dir : string;
  python_version : string;
  excluded_packages : gset string;
  extension_dir : string;
  wheels_dir : string;
  manifest_path : string;
  pyproject_path : string;
  project_config : config;
}.

Definition DEFAULT_EXCLUDED : gset string :=
  {[ "pyarrow"; "certifi"; "charset_normalizer"; "idna";
     "numpy"; "requests"; "urllib3" ]}.

(** [excluded_packages or {...}]: [None] and the empty set are both falsy. *)
Definition excluded_or_default (excluded : option (gset string)) : gset string :=
  match excluded with
  | None => DEFAULT_EXCLUDED
  | Some s => if decide (s = ∅) then DEFAULT_EXCLUDED else s
  end.

(** [def _validate_source_dir(self)] *)
Definition _validate_source_dir (dir : string) (fs : source) : result unit :=
  if negb (source_exists fs) then
    Raise (ConfigurationError ("Source directory does not exist: " +:+ dir))
  else if negb (child_exists fs "pyproject.toml") then
    Raise (ConfigurationError ("No pyproject.toml found in " +:+ dir))
  else Ok tt.

(** The first loop of [_find_extension_dir]: the first entry, in
    [iterdir()] order, that is a directory holding a manifest. *)
Fixpoint first_manifest_dir (entries : list (string * node)) : option string :=
  match entries with
  | [] => None
  | (item, n) :: rest =>
      if is_dir n && has_manifest n then Some item
      else first_manifest_dir rest
  end.

(** The second loop: the first of the conventional names that is a
    directory. *)
Fixpoint first_fallback (fs : source) (names : list string) : option string :=
  match names with
  | [] => None
  | nm :: rest =>
      if child_exists fs nm && child_is_dir fs nm then Some nm
      else first_fallback fs rest
  end.

Definition FALLBACK_NAMES : list string := ["extension"; "addon"; "warbler"].

(** The subdirectories of the source directory that hold a manifest, in
    [iterdir()] order, and the conventional names that are directories
    there: what the two loops of [_find_extension_dir] search. *)
Definition manifest_dirs (fs : source) : list string :=
  match fs with
  | Tree entries =>
      (filter (λ e, Is_true (is_dir e.2 && has_manifest e.2)) entries).*1
  | _ => []
  end.

Definition fallback_dirs (fs : source) : list string :=
  filter (λ nm, Is_true (child_exists fs nm && child_is_dir fs nm))
    FALLBACK_NAMES.

(** [def _find_extension_dir(self)].  [iterdir()] on something that is not
    a directory raises; [_validate_source_dir] has ruled that out before
    the call. *)
Definition _find_extension_dir (dir : string) (fs : source) : result string :=
  match fs with
  | Tree entries =>
      match first_manifest_dir entries with
      | Some item => Ok (joinpath dir item)
      | None =>
          match first_fallback fs FALLBACK_NAMES with
          | Some nm => Ok (joinpath dir nm)
          | None =>
              Raise (ConfigurationError
                       ("No extension directory found in " +:+ dir +:+ ". "
                          +:+ "Expected a directory containing blender_manifest.toml"))
          end
      end
  | _ => Raise (FileNotFoundError dir)
  end.

(** [def _load_project_config(self)].  The [ConfigurationError] raised
    inside the [try] for a missing [project] table is caught by
    [except Exception] and raised again with the longer message. *)
Definition _load_project_config (path : string) (o : parse_outcome)
  : result config :=
  match o with
  | NotFound =>
      Raise (ConfigurationError ("pyproject.toml not found: " +:+ path))
  | Failed msg =>
      Raise (ConfigurationError ("Error reading pyproject.toml: " +:+ msg))
  | Parsed doc =>
      match project doc with
      | None =>
          Raise (ConfigurationError
                   ("Error reading pyproject.toml: "
                      +:+ "No [project] section in pyproject.toml"))
      | Some p =>
          Ok {| cfg_name := p_name p;
                cfg_version := p_version p;
                dependencies := default [] (p_dependencies p);
                configured_platforms := tool_extbpy_platforms doc |}
      end
  end.

(** [def __init__(self, source_dir, output_dir, python_version,
    excluded_packages)].  [fs] is the state of [source_dir] on disk, [o]
    what reading [pyproject.toml] gives, [cwd] the working directory. *)
Definition __init__ (fs : source) (o : parse_outcome) (cwd : string)
    (source_dir : string) (output_dir : option string)
    (python_version : string) (excluded_packages : option (gset string))
  : result ExtensionBuilder :=
  let out := match output_dir with
             | Some d => if decide (d = "") then cwd else d
             | None => cwd
             end in
  let excl := excluded_or_default excluded_packages in
  match _validate_source_dir source_dir fs with
  | Raise e => Raise e
  | Ok _ =>
      match _find_extension_dir source_dir fs with
      | Raise e => Raise e
      | Ok ext =>
          let pyproject_path := joinpath source_dir "pyproject.toml" in
          match _load_project_config pyproject_path o with
          | Raise e => Raise e
          | Ok cfg =>
              Ok {| source_dir := source_dir;
                    output_dir := out;
                    python_version := python_version;
                    excluded_packages := excl;
                    extension_dir := ext;
                    wheels_dir := joinpath ext "wheels";
                    manifest_path := joinpath ext "blender_manifest.toml";
                    pyproject_path := pyproject_path;
                    project_config := cfg |}
          end
      end
  end.

(** *** Configured platforms *)

(** Modelled from the spec: [get_configured_platforms] is called by
    [tests/test_builder.py] but is not defined in [builder.py].  The model
    follows section 4.3: the optional list under [tool.extbpy.platforms]
    is read, every name is looked up in the registry, the unknown names
    are reported together, and an absent setting gives the empty list.
    The test expects a [ConfigurationError] matching "Invalid platforms". *)
Definition get_configured_platforms (self : ExtensionBuilder)
  : result (list string) :=
  match configured_platforms (project_config self) with
  | None => Ok []
  | Some names =>
      let invalid := filter (λ n, n ∉ keys PLATFORMS) names in
      if decide (invalid = []) then Ok names
      else Raise (ConfigurationError
                    ("Invalid platforms: " +:+ Str.join ", " invalid))
  end.

(** *** Downloading wheels *)

(** What a Python function annotated [-> List[str]] hands back: a list, or
    [None] after a bare [return]. *)
Inductive returned : Type :=
  | ReturnsNone
  | Returns (l : list string).

Section download.
(** The world outside the process: the package index, the network, the
    disk. *)
Context {World : Type}.

(** [_run_python_command(args)]: runs the interpreter on [args] and
    returns, or raises [DependencyError] with the captured output. *)
Variable _run_python_command : list string → World → option string * World.
(** [self.wheels_dir.mkdir(parents=True, exist_ok=True)] *)
Variable mkdir_wheels : World → World.
(** [_clean_wheels_dir()] *)
Variable _clean_wheels_dir : World → World.

Definition pip_download (self : ExtensionBuilder) (p : Platform) : list string :=
  ["-m"; "pip"; "download"]
    ++ dependencies (project_config self)
    ++ ["--dest"; wheels_dir self;
        "--only-binary=:all:";
        "--python-version=" +:+ python_version self;
        "--platform=" +:+ pypi_suffix p].

(** The [for platform_obj in platform_objects] loop, with its two
    accumulators. *)
Fixpoint download_loop (self : ExtensionBuilder) (objs : list Platform)
    (failed successful : list string) (w : World)
  : list string * list string * World :=
  match objs with
  | [] => (failed, successful, w)
  | p :: rest =>
      match _run_python_command (pip_download self p) w with
      | (None, w') =>
          download_loop self rest failed (successful ++ [name p]) w'
      | (Some _, w') =>
          download_loop self rest (failed ++ [name p]) successful w'
      end
  end.

(** The platforms in the order the loop visits them, each with whether
    its download returned: what the log lines of the loop record. *)
Fixpoint outcomes (self : ExtensionBuilder) (objs : list Platform)
    (w : World) : list (string * bool) :=
  match objs with
  | [] => []
  | p :: rest =>
      match _run_python_command (pip_download self p) w with
      | (None, w') => (name p, true) :: outcomes self rest w'
      | (Some _, w') => (name p, false) :: outcomes self rest w'
      end
  end.

(** [def download_wheels(self, platforms, clean, ignore_platform_errors)].
    [_ensure_tomlkit_available()] does nothing here: the module has
    imported [tomlkit] already. *)
Definition download_wheels (self : ExtensionBuilder)
    (platforms : list string) (clean ignore_platform_errors : bool)
    (w : World) : result returned * World :=
  match call (get_platforms platforms) with
  | Raise e => (Raise e, w)
  | Ok platform_objects =>
      let deps := dependencies (project_config self) in
      if decide (deps = []) then (Ok ReturnsNone, w)
      else
        let w := mkdir_wheels w in
        let w := if clean then _clean_wheels_dir w else w in
        let '(failed, successful, w) :=
          download_loop self platform_objects [] [] w in
        if decide (failed ≠ [] ∧ successful = []) then
          (Raise (DependencyError
                    ("Failed to download wheels for all platforms: "
                       +:+ Str.join ", " failed)), w)
        else if decide (failed ≠ []) then
          if ignore_platform_errors then (Ok (Returns successful), w)
          else
            (Raise (DependencyError
                      ("Failed to download wheels for platforms: "
                         +:+ Str.join ", " failed)), w)
        else (Ok (Returns successful), w)
  end.
End download.

(** The platforms whose download returned, and those whose download
    raised, in the order of the request. *)
Definition succeeded (tr : list (string * bool)) : list string :=
  (filter (λ o, Is_true o.2) tr).*1.
Definition failed (tr : list (string * bool)) : list string :=
  (filter (λ o, ¬ Is_true o.2) tr).*1.

(** *** Filtering wheels *)

(** [self.wheels_dir.glob("*.whl")] on a directory whose entries are
    [listing], in the order the system enumerates them, on a POSIX host
    ([glob_whl_on] further down covers both hosts). *)
Definition glob_whl (listing : list string) : list string :=
  filter (λ n, Is_true (Str.endswith ".whl" n)) listing.

(** [list.sort()] on paths of one directory of a POSIX host: by name,
    bytewise.  [sort_paths] further down covers both hosts. *)
Definition sort_names (l : list string) : list string :=
  merge_sort String.le l.

(** [any(pkg.lower() in whl_name for pkg in self.excluded_packages)] with
    [whl_name = whl_path.name.lower()] *)
Definition should_exclude (excluded : gset string) (whl : string) : bool :=
  let whl_name := Str.lower whl in
  existsb (λ pkg, Str.contains (Str.lower pkg) whl_name) (elements excluded).

(** [whl_path.unlink()] *)
Definition unlink (whl : string) (listing : list string)
  : option exn * list string :=
  if decide (whl ∈ listing) then (None, filter (λ n, n ≠ whl) listing)
  else (Some (FileNotFoundError whl), listing).

(** [for whl_path in to_remove: whl_path.unlink()] *)
Fixpoint unlink_all (to_remove : list string) (listing : list string)
  : option exn * list string :=
  match to_remove with
  | [] => (None, listing)
  | whl :: rest =>
      match unlink whl listing with
      | (None, listing') => unlink_all rest listing'
      | (Some e, listing') => (Some e, listing')
      end
  end.

(** [def _filter_wheels(self)]: the value returned (or the exception) and
    the wheels directory afterwards. *)
Definition _filter_wheels (self : ExtensionBuilder) (listing : list string)
  : result (list string) * list string :=
  let wheel_files := sort_names (glob_whl listing) in
  let to_keep :=
    filter (λ w, ¬ Is_true (should_exclude (excluded_packages self) w))
      wheel_files in
  let to_remove :=
    filter (λ w, Is_true (should_exclude (excluded_packages self) w))
      wheel_files in
  match unlink_all to_remove listing with
  | (None, listing') => (Ok to_keep, listing')
  | (Some e, listing') => (Raise e, listing')
  end.

(** *** The manifest *)

(** The part of TOML a manifest written by [tomlkit.dump] uses at top
    level: keys bound to strings or to arrays of strings, in file order. *)
Inductive toml_value : Type :=
  | TString (s : string)
  | TArray (items : list string).

Definition document : Type := list (string * toml_value).

(** [doc[k]] *)
Fixpoint doc_get (doc : document) (k : string) : option toml_value :=
  match doc with
  | [] => None
  | (k', v) :: rest => if decide (k = k') then Some v else doc_get rest k
  end.

(** [doc[k] = v]: in place when the key is bound, at the end otherwise. *)
Fixpoint doc_set (k : string) (v : toml_value) (doc : document) : document :=
  match doc with
  | [] => [(k, v)]
  | (k', v') :: rest =>
      if decide (k = k') then (k, v) :: rest
      else (k', v') :: doc_set k v rest
  end.

Definition quote : string := String "034" "".
Definition backslash : string := String "092" "".
Definition newline : string := String "010" "".
Definition tab : string := String "009" "".

(** A TOML basic string escapes the backslash and the quote. *)
Fixpoint escape (s : string) : string :=
  match s with
  | EmptyString => EmptyString
  | String c s' =>
      if decide (c = "092"%char) then backslash +:+ backslash +:+ escape s'
      else if decide (c = "034"%char) then backslash +:+ quote +:+ escape s'
      else String c (escape s')
  end.

Definition dump_string (s : string) : string := quote +:+ escape s +:+ quote.

Definition dump_value (v : toml_value) : string :=
  match v with
  | TString s => dump_string s
  | TArray items => "[" +:+ Str.join ", " (dump_string <$> items) +:+ "]"
  end.

(** [tomlkit.dumps(doc)]: one [key = value] line per binding. *)
Fixpoint dumps (doc : document) : string :=
  match doc with
  | [] => ""
  | (k, v) :: rest => k +:+ " = " +:+ dump_value v +:+ newline +:+ dumps rest
  end.

(** The four [.replace] calls under [# Format arrays nicely]. *)
Definition format_arrays (content : string) : string :=
  Str.replace (backslash +:+ backslash) "/"
    (Str.replace (quote +:+ "]") (quote +:+ "," +:+ newline +:+ "]")
       (Str.replace (quote +:+ ", " +:+ quote)
                    (quote +:+ "," +:+ newline +:+ tab +:+ quote)
          (Str.replace ("[" +:+ quote) ("[" +:+ newline +:+ tab +:+ quote)
             content))).

(** [wheel_paths = [f"./wheels/{whl.name}" for whl in wheel_files]] *)
Definition wheel_paths (wheel_files : list string) : list string :=
  (λ whl, "./wheels/" +:+ whl) <$> wheel_files.

(** The document [update_manifest] holds in memory before writing. *)
Definition updated_document (platform_objects : list Platform)
    (wheel_files : list string) (manifest : option document) : document :=
  let manifest := default [] manifest in
  let manifest := doc_set "wheels" (TArray (wheel_paths wheel_files)) manifest in
  doc_set "platforms" (TArray (metadata <$> platform_objects)) manifest.

(** [def update_manifest(self, platforms)].  [listing] is the wheels
    directory and [manifest] the parsed manifest file, [None] when the
    file does not exist.  Returns the text written to the manifest file
    (or the exception) and the wheels directory afterwards. *)
Definition update_manifest (self : ExtensionBuilder) (platforms : list string)
    (listing : list string) (manifest : option document)
  : result string * list string :=
  match call (get_platforms platforms) with
  | Raise e => (Raise e, listing)
  | Ok platform_objects =>
      match _filter_wheels self listing with
      | (Raise e, listing') => (Raise e, listing')
      | (Ok wheel_files, listing') =>
          let doc := updated_document platform_objects wheel_files manifest in
          (Ok (format_arrays (dumps doc)), listing')
      end
  end.

(** *** Temporary files *)

(** [file_path.name] for a path relative to the extension directory. *)
Definition basename (path : string) : string := Str.rsplit_last "/" path.

Definition DEFAULT_PATTERNS : list string := [".blend1"; ".MNSession"].

(** [self.extension_dir.rglob(f"**/*{pattern}")] restricted to regular files
    ([if file_path.is_file()]), for a [pattern] that holds no glob
    metacharacter and no separator: the files, at any depth, whose name ends
    with [pattern].  [files] are the regular files under the extension
    directory, by relative path. *)
Definition rglob_suffix (pattern : string) (files : list string) : list string :=
  filter (λ f, Is_true (Str.endswith pattern (basename f))) files.

(** The [for pattern in patterns] loop of [clean_files]: every match of the
    pattern among the files still there is unlinked and counted. *)
Fixpoint clean_loop (patterns : list string) (files : list string)
    (cleaned_count : nat) : nat * list string :=
  match patterns with
  | [] => (cleaned_count, files)
  | pattern :: rest =>
      let matched := rglob_suffix pattern files in
      clean_loop rest (filter (λ f, f ∉ matched) files)
        (cleaned_count + length matched)
  end.

(** [def clean_files(self, patterns=None)]: the count returned and the files
    left. *)
Definition clean_files (patterns : option (list string)) (files : list string)
  : nat * list string :=
  clean_loop (default DEFAULT_PATTERNS patterns) files 0.

(** *** The extension directory and the outside world *)

(** What the build reads and changes on disk and beyond.  [disk_wheels] are
    the regular files directly in [wheels_dir], by name; [disk_files] the
    other regular files under [extension_dir], by relative path;
    [disk_env] whatever else the subprocesses see and change.  A missing
    wheels directory and an empty one are not told apart: [glob] yields
    nothing on both and [mkdir(parents=True, exist_ok=True)] makes both
    exist. *)
Record Disk (Env : Type) : Type := mkDisk {
  disk_env : Env;
  disk_wheels : list string;
  disk_files : list string;
}.
Arguments mkDisk {Env} _ _ _.
Arguments disk_env {Env} _.
Arguments disk_wheels {Env} _.
Arguments disk_files {Env} _.

(** [self.wheels_dir.mkdir(parents=True, exist_ok=True)] *)
Definition mkdir_wheels_disk {Env} (w : Disk Env) : Disk Env := w.

(** [def _clean_wheels_dir(self)]: [shutil.rmtree] takes everything below
    the wheels directory with it. *)
Definition _clean_wheels_dir_disk {Env} (w : Disk Env) : Disk Env :=
  {| disk_env := disk_env w;
     disk_wheels := [];
     disk_files :=
       filter (λ f, ¬ Is_true (Str.startswith "wheels/" f)) (disk_files w) |}.

(** [self.clean_files()] with the default patterns, on the whole extension
    directory: the wheels directory lies inside it. *)
Definition clean_default_files {Env} (w : Disk Env) : nat * Disk Env :=
  let '(n1, files) := clean_files None (disk_files w) in
  let '(n2, wheels) := clean_files None (disk_wheels w) in
  (n1 + n2,
   {| disk_env := disk_env w; disk_wheels := wheels; disk_files := files |}).

(** [update_manifest] on the disk.  [manifest] is what [tomlkit.parse]
    makes of the manifest file when the function reads it, [None] when the
    file is not there. *)
Definition update_manifest_disk {Env} (self : ExtensionBuilder)
    (platforms : list string) (manifest : option document) (w : Disk Env)
  : result string * Disk Env :=
  let '(r, remaining) := update_manifest self platforms (disk_wheels w) manifest in
  (r, {| disk_env := disk_env w;
         disk_wheels := remaining;
         disk_files := disk_files w |}).

(** *** Building *)

Section build.
Context {Env : Type}.

(** [_run_python_command(args)], as in [download_wheels]. *)
Variable _run_python_command :
  list string → Disk Env → option string * Disk Env.
(** [subprocess.run(cmd, check=True, ...)] on the Blender command: returns,
    or raises [CalledProcessError] carrying [stderr]. *)
Variable run_blender : list string → Disk Env → option string * Disk Env.
(** [bpy.app.binary_path], [None] when [import bpy] raises [ImportError]. *)
Variable bpy_binary_path : option string.
(** [shutil.which(name)] *)
Variable which : string → option string.

(** Truth value of what [shutil.which] returns. *)
Definition truthy (o : option string) : bool :=
  match o with
  | Some p => if decide (p = "") then false else true
  | None => false
  end.

(** The [for name in blender_names] loop. *)
Fixpoint first_which (blender_names : list string) : option string :=
  match blender_names with
  | [] => None
  | nm :: rest =>
      if truthy (which nm) then which nm else first_which rest
  end.

(** [def _find_blender_executable(self)] *)
Definition _find_blender_executable : result string :=
  match bpy_binary_path with
  | Some binary_path => Ok binary_path
  | None =>
      match first_which ["blender"; "blender.exe"] with
      | Some exe => Ok exe
      | None =>
          Raise (BlenderError
                   ("Blender executable not found. Please ensure Blender is installed "
                      +:+ "and available in PATH, or run this tool from within Blender."))
      end
  end.

(** The command line of [build_extension]. *)
Definition blender_command (self : ExtensionBuilder) (blender_exe : string)
    (split_platforms : bool) : list string :=
  [blender_exe; "--command"; "extension"; "build";
   "--source-dir"; extension_dir self;
   "--output-dir"; output_dir self]
    ++ (if split_platforms then ["--split-platforms"] else []).

(** [def build_extension(self, split_platforms)] *)
Definition build_extension (self : ExtensionBuilder) (split_platforms : bool)
    (w : Disk Env) : result unit * Disk Env :=
  let w := (clean_default_files w).2 in
  match _find_blender_executable with
  | Raise e => (Raise e, w)
  | Ok blender_exe =>
      match run_blender (blender_command self blender_exe split_platforms) w with
      | (None, w') => (Ok tt, w')
      | (Some stderr, w') =>
          (Raise (BuildError
                    ("Extension build failed: "
                       +:+ (if decide (stderr = "") then "Unknown error"
                            else stderr))), w')
      end
  end.

(** [not successful_platforms]: [None] and the empty list are falsy. *)
Definition falsy (r : returned) : bool :=
  match r with
  | ReturnsNone => true
  | Returns [] => true
  | Returns (_ :: _) => false
  end.

Definition returned_list (r : returned) : list string :=
  match r with ReturnsNone => [] | Returns l => l end.

(** [def build(self, platforms, clean, split_platforms,
    ignore_platform_errors)]: the outcome, the text written to the manifest
    file if any, and the disk afterwards.  The [except Exception] clause
    logs and raises the exception again. *)
Definition build (self : ExtensionBuilder) (platforms : list string)
    (clean split_platforms ignore_platform_errors : bool)
    (manifest : option document) (w : Disk Env)
  : result unit * option string * Disk Env :=
  match download_wheels _run_python_command mkdir_wheels_disk
          _clean_wheels_dir_disk self platforms clean
          ignore_platform_errors w with
  | (Raise e, w) => (Raise e, None, w)
  | (Ok successful_platforms, w) =>
      if falsy successful_platforms then
        (Raise (BuildError "No platforms were successfully processed"), None, w)
      else
        match update_manifest_disk self (returned_list successful_platforms)
                manifest w with
        | (Raise e, w) => (Raise e, None, w)
        | (Ok content, w) =>
            match build_extension self split_platforms w with
            | (Raise e, w) => (Raise e, Some content, w)
            | (Ok _, w) => (Ok tt, Some content, w)
            end
        end
  end.
End build.

(** The keys of a document, in file order. *)
Definition doc_keys (doc : document) : list string := doc.*1.

(** *** The host's path flavour *)

(** [self.wheels_dir] is a [pathlib.Path]: a [PosixPath] or a
    [WindowsPath] after the host that runs the tool, and the tool runs on
    both ([detect_current_platform] answers for [Windows]).
    [wheel_files.sort()] orders the paths by [Path.__lt__]: a POSIX path
    compares by its text, a Windows path by its lower-cased text, and
    [glob] matches its pattern in the same way. *)
Inductive host : Type :=
  | Posix
  | Windows.

(** The text a path of the host is compared by.  Wheel file names are
    ASCII, where [Str.lower] is [str.lower]. *)
Definition normcase (h : host) (s : string) : string :=
  match h with
  | Posix => s
  | Windows => Str.lower s
  end.

(** [a <= b] on two paths of one directory, by their names. *)
Definition path_le (h : host) (a b : string) : Prop :=
  String.le (normcase h a) (normcase h b).

#[global] Instance path_le_dec (h : host) : RelDecision (path_le h) :=
  λ a b, decide (String.le (normcase h a) (normcase h b)).

(** [self.wheels_dir.glob("*.whl")] on the host. *)
Definition glob_whl_on (h : host) (listing : list string) : list string :=
  filter (λ n, Is_true (Str.endswith ".whl" (normcase h n))) listing.

(** [wheel_files.sort()] on the host.  Two names that the host compares
    equal do not share a directory, so the order of ties does not arise. *)
Definition sort_paths (h : host) (l : list string) : list string :=
  merge_sort (path_le h) l.

(** [def _filter_wheels(self)] on the host: [_filter_wheels] above is the
    case [Posix]. *)
Definition _filter_wheels_on (h : host) (self : ExtensionBuilder)
    (listing : list string) : result (list string) * list string :=
  let wheel_files := sort_paths h (glob_whl_on h listing) in
  let to_keep :=
    filter (λ w, ¬ Is_true (should_exclude (excluded_packages self) w))
      wheel_files in
  let to_remove :=
    filter (λ w, Is_true (should_exclude (excluded_packages self) w))
      wheel_files in
  match unlink_all to_remove listing with
  | (None, listing') => (Ok to_keep, listing')
  | (Some e, listing') => (Raise e, listing')
  end.

(** [def update_manifest(self, platforms)] on the host. *)
Definition update_manifest_on (h : host) (self : ExtensionBuilder)
    (platforms : list string) (listing : list string)
    (manifest : option document) : result string * list string :=
  match call (get_platforms platforms) with
  | Raise e => (Raise e, listing)
  | Ok platform_objects =>
      match _filter_wheels_on h self listing with
      | (Raise e, listing') => (Raise e, listing')
      | (Ok wheel_files, listing') =>
          let doc := updated_document platform_objects wheel_files manifest in
          (Ok (format_arrays (dumps doc)), listing')
      end
  end.

End builder.

(** ** Example projects *)

Module fixtures.
Import platforms builder.

(** The project of [tests/test_builder.py]: a [pyproject.toml] and one
    extension directory. *)
Definition temp_project : source :=
  Tree [ ("pyproject.toml", File);
         ("test-extension", Dir ["blender_manifest.toml"; "__init__.py"]) ].

Definition temp_pyproject : pyproject :=
  {| project := Some {| p_name := Some "test-extension";
                        p_version := Some "1.0.0";
                        p_dependencies := Some ["click>=8.0.0"; "rich>=13.0.0"] |};
     tool_extbpy_platforms := Some ["windows-x64"; "linux-x64"] |}.

(** A project with two extension directories. *)
Definition two_manifests : source :=
  Tree [ ("pyproject.toml", File);
         ("addon_a", Dir ["blender_manifest.toml"; "__init__.py"]);
         ("addon_b", Dir ["blender_manifest.toml"; "__init__.py"]) ].

(** A project whose [pyproject.toml] lists no dependencies. *)
Definition no_dependencies : pyproject :=
  {| project := Some {| p_name := Some "test";
                        p_version := None;
                        p_dependencies := Some [] |};
     tool_extbpy_platforms := None |}.

(** A manifest with a backslash in a field the tool does not own, and the
    same manifest with a slash in its place. *)
Definition manifest_backslash : document :=
  [ ("id", TString "test-extension");
    ("tagline", TString ("C:" +:+ backslash +:+ "addons")) ].

Definition manifest_slash : document :=
  [ ("id", TString "test-extension");
    ("tagline", TString "C:/addons") ].

(** A builder as [__init__] leaves it for [temp_project], with the given
    configuration. *)
Definition builder_with (excluded : gset string) (deps : list string)
    (configured : option (list string)) : ExtensionBuilder :=
  {| source_dir := "/tmp/p";
     output_dir := "/tmp/out";
     python_version := "3.11";
     excluded_packages := excluded;
     extension_dir := "/tmp/p/test-extension";
     wheels_dir := "/tmp/p/test-extension/wheels";
     manifest_path := "/tmp/p/test-extension/blender_manifest.toml";
     pyproject_path := "/tmp/p/pyproject.toml";
     project_config := {| cfg_name := Some "test-extension";
                          cfg_version := Some "1.0.0";
                          dependencies := deps;
                          configured_platforms := configured |} |}.

(** The builder of [test_builder_initialization]. *)
Definition temp_builder : ExtensionBuilder :=
  builder_with DEFAULT_EXCLUDED ["click>=8.0.0"; "rich>=13.0.0"]
    (Some ["windows-x64"; "linux-x64"]).

(** Wheels directories after a download. *)
Definition two_wheels : list string :=
  [ "NumPy-1.26.4-cp311-cp311-win_amd64.whl";
    "click-8.1.7-py3-none-any.whl" ].

Definition three_wheels : list string :=
  [ "rich-13.7.0-py3-none-any.whl";
    "numpy-1.26.4-cp311-cp311-win_amd64.whl";
    "click-8.1.7-py3-none-any.whl" ].

(** A package index that has wheels for Linux only; the world counts the
    commands run. *)
Definition index_linux_only (cmd : list string) (w : nat)
  : option string * nat :=
  (if decide ("--platform=manylinux2014_x86_64" ∈ cmd) then None
   else Some "ERROR: No matching distribution found", S w).

(** The same index writing into the wheels directory. *)
Definition pip_linux_only (cmd : list string) (w : Disk nat)
  : option string * Disk nat :=
  if decide ("--platform=manylinux2014_x86_64" ∈ cmd) then
    (None,
     {| disk_env := S (disk_env w);
        disk_wheels :=
          disk_wheels w
            ++ ["rich-13.7.0-py3-none-any.whl";
                "numpy-1.26.4-cp311-cp311-manylinux2014_x86_64.whl";
                "click-8.1.7-py3-none-any.whl"];
        disk_files := disk_files w |})
  else
    (Some "ERROR: No matching distribution found",
     {| disk_env := S (disk_env w);
        disk_wheels := disk_wheels w;
        disk_files := disk_files w |}).

(** A Blender that builds without complaint, and one that fails. *)
Definition blender_ok (cmd : list string) (w : Disk nat)
  : option string * Disk nat := (None, w).
Definition blender_fails (cmd : list string) (w : Disk nat)
  : option string * Disk nat := (Some "Error: invalid manifest", w).

(** A [PATH] with Blender on it. *)
Definition which_blender (nm : string) : option string :=
  if decide (nm = "blender") then Some "/usr/bin/blender" else None.

(** An extension directory before a build. *)
Definition disk_before : Disk nat :=
  {| disk_env := 0;
     disk_wheels := ["stale-0.1-py3-none-any.whl"];
     disk_files := ["__init__.py"; "blender_manifest.toml";
                    "assets/scene.blend"; "assets/scene.blend1"] |}.

(** Wheels whose names differ in case, as the index serves them. *)
Definition mixed_case_wheels : list string :=
  [ "PyYAML-6.0.1-cp311-cp311-win_amd64.whl";
    "click-8.1.7-py3-none-any.whl";
    "Jinja2-3.1.2-py3-none-any.whl" ].

End fixtures.

(** * Properties *)

(** Closes a decidable goal by evaluating its decision procedure. *)
Ltac by_decide :=
  match goal with
  | |- ?P => apply (bool_decide_unpack P); vm_compute; exact I
  end.

(** ** Strings *)

Module StrFacts.
Import Str.

#[local] Arguments String.append !_ _ / : simpl nomatch.

Lemma append_cons c s r : String c s +:+ r = String c (s +:+ r).
Proof. reflexivity. Qed.

Lemma append_nil s : "" +:+ s = s.
Proof. reflexivity. Qed.

Lemma append_assoc a b c : (a +:+ b) +:+ c = a +:+ (b +:+ c).
Proof. induction a as [|x a IH]; simpl; [done | by rewrite IH]. Qed.

Lemma startswith_spec p s :
  startswith p s = true ↔ ∃ r, s = p +:+ r.
Proof.
  revert s. induction p as [|a p IH]; intros s; simpl.
  - split; eauto.
  - destruct s as [|b s]; simpl.
    + split; [done | intros [r Hr]; done].
    + destruct (decide (a = b)) as [->|Hab].
      * rewrite IH. split; intros [r Hr]; exists r; simpl in *; congruence.
      * split; [done | intros [r Hr]; simpl in *; congruence].
Qed.

Lemma startswith_refl s : startswith s s = true.
Proof. induction s as [|a s IH]; simpl; [done | by rewrite decide_True]. Qed.

Lemma startswith_app p s r :
  startswith p s = true → startswith p (s +:+ r) = true.
Proof.
  rewrite !startswith_spec. intros [x ->]. exists (x +:+ r).
  apply append_assoc.
Qed.

Lemma contains_unfold needle hay :
  contains needle hay =
    startswith needle hay
    || match hay with
       | EmptyString => false
       | String _ hay' => contains needle hay'
       end.
Proof. by destruct hay. Qed.

(** [needle in hay] holds exactly when [hay] splits around [needle]. *)
Lemma contains_spec needle hay :
  contains needle hay = true ↔ ∃ a b, hay = a +:+ needle +:+ b.
Proof.
  split.
  - induction hay as [|c hay IH]; rewrite contains_unfold; intros H.
    + rewrite orb_false_r in H. apply startswith_spec in H as [r ->].
      by exists "", r.
    + apply orb_true_iff in H as [H|H].
      * apply startswith_spec in H as [r ->]. by exists "", r.
      * destruct (IH H) as (a & b & ->). by exists (String c a), b.
  - intros (a & b & ->). induction a as [|c a IH]; simpl.
    + rewrite contains_unfold.
      assert (startswith needle (needle +:+ b) = true) as ->; [|done].
      apply startswith_spec. eauto.
    + by rewrite IH, orb_true_r.
Qed.

Lemma contains_refl s : contains s s = true.
Proof. by rewrite contains_unfold, startswith_refl. Qed.

Lemma contains_app_r needle a b :
  contains needle b = true → contains needle (a +:+ b) = true.
Proof.
  intros H. induction a as [|c a IH]; simpl; [done|].
  by rewrite IH, orb_true_r.
Qed.

Lemma contains_app_l needle a b :
  contains needle a = true → contains needle (a +:+ b) = true.
Proof.
  rewrite !contains_spec. intros (x & y & ->). exists x, (y +:+ b).
  by rewrite !append_assoc.
Qed.

(** Every element of a joined list occurs in the result. *)
Lemma contains_join sep x l :
  x ∈ l → contains x (join sep l) = true.
Proof.
  induction l as [|y l IH]; [by intros ?%elem_of_nil|].
  intros [->|Hx]%elem_of_cons; destruct l as [|z l]; simpl.
  - apply contains_refl.
  - apply contains_app_l, contains_refl.
  - by apply elem_of_nil in Hx.
  - by apply contains_app_r, contains_app_r, IH.
Qed.

(** [replace] satisfies the equations that define Python's [str.replace]
    for a non-empty [old]: at an occurrence it emits [new] and resumes after
    the occurrence; elsewhere it copies one character. *)
Lemma replace_from_skip old new p s :
  replace_from old new (String.length p) (p +:+ s) = replace_from old new 0 s.
Proof. induction p as [|c p IH]; simpl; [done | apply IH]. Qed.

Lemma replace_empty a old new : replace (String a old) new "" = "".
Proof. reflexivity. Qed.

Lemma replace_match a old new s :
  replace (String a old) new (String a old +:+ s)
  = new +:+ replace (String a old) new s.
Proof.
  unfold replace. change (String a old +:+ s) with (String a (old +:+ s)).
  cbn [replace_from].
  assert (startswith (String a old) (String a (old +:+ s)) = true) as ->.
  { apply startswith_spec. by exists s. }
  by rewrite replace_from_skip.
Qed.

Lemma replace_step old new c s :
  startswith old (String c s) = false →
  replace old new (String c s) = String c (replace old new s).
Proof. intros H. unfold replace. cbn [replace_from]. by rewrite H. Qed.

Lemma endswith_last_char suf s :
  suf ≠ "" → endswith suf s = true → last_char s = last_char suf.
Proof.
  intros Hsuf. induction s as [|c s IH]; simpl.
  - destruct (decide ("" = suf)); [congruence | done].
  - destruct (decide (String c s = suf)) as [<-|_]; [done|].
    intros H. rewrite <-(IH H). destruct s as [|d s]; [|done].
    simpl in H. destruct (decide ("" = suf)); [congruence | done].
Qed.

(** Two suffixes of one string end in the same character. *)
Lemma endswith_exclusive a b s :
  a ≠ "" → b ≠ "" → last_char a ≠ last_char b →
  endswith a s = true → endswith b s = false.
Proof.
  intros Ha Hb Hab H. destruct (endswith b s) eqn:E; [|done].
  apply (endswith_last_char _ _ Ha) in H.
  apply (endswith_last_char _ _ Hb) in E. congruence.
Qed.

End StrFacts.

(** ** The platform registry *)

Module PlatformFacts.
Import Str StrFacts platforms.

Ltac run_reg :=
  unfold call, get_platform, list_available_platforms,
    detect_current_platform, match_wheel_to_platforms,
    mbind, Reg_bind, bind, read_PLATFORMS, ret, raise; simpl.

Lemma PLATFORMS_keys :
  keys PLATFORMS = ["windows-x64"; "linux-x64"; "macos-arm64"; "macos-x64"].
Proof. reflexivity. Qed.

Lemma get_platform_state key g : (get_platform key g).2 = g.
Proof.
  run_reg. destruct (decide (key ∈ keys g)); [|done].
  by destruct (getitem g key).
Qed.

Lemma get_platforms_state names g : (get_platforms names g).2 = g.
Proof.
  revert g. induction names as [|n names IH]; intros g; [done|].
  simpl. unfold mbind, Reg_bind, bind.
  pose proof (get_platform_state n g) as Hn.
  destruct (get_platform n g) as [[p|e] g1]; simpl in Hn; subst g1; [|done].
  pose proof (IH g) as Hr.
  destruct (get_platforms names g) as [[ps|e] g2]; simpl in Hr; by subst g2.
Qed.

Lemma detect_current_platform_state system machine g :
  (detect_current_platform system machine g).2 = g.
Proof. run_reg. repeat case_decide; done. Qed.

Lemma get_platform_known key :
  key ∈ keys PLATFORMS →
  ∃ p, call (get_platform key) = Ok p ∧ name p = key.
Proof.
  rewrite PLATFORMS_keys, !elem_of_cons, elem_of_nil.
  intros [->|[->|[->|[->|[]]]]]; eexists; split; reflexivity.
Qed.

Lemma get_platform_unknown key :
  key ∉ keys PLATFORMS →
  call (get_platform key) =
    Raise (PlatformError
             ("Unsupported platform '" +:+ key +:+ "'. Available: "
                +:+ join ", " (keys PLATFORMS))).
Proof. intros Hk. run_reg. by rewrite decide_False. Qed.

Lemma get_platform_run key :
  key ∈ keys PLATFORMS →
  ∃ p, get_platform key PLATFORMS = (Ok p, PLATFORMS)
       ∧ name p = key ∧ metadata p = key.
Proof.
  rewrite PLATFORMS_keys, !elem_of_cons, elem_of_nil.
  intros [->|[->|[->|[->|[]]]]]; eexists; repeat split; reflexivity.
Qed.

(** [get_platforms] on registered names returns the registered records,
    in order. *)
Lemma get_platforms_known names :
  Forall (λ n, n ∈ keys PLATFORMS) names →
  ∃ ps, call (get_platforms names) = Ok ps
        ∧ name <$> ps = names ∧ metadata <$> ps = names.
Proof.
  induction 1 as [|n names Hn _ (ps & Hps & Hnames & Hmeta)].
  - by exists [].
  - destruct (get_platform_run n Hn) as (p & Hp & Hname & Hmeta').
    unfold call in *. simpl. unfold mbind, Reg_bind, bind. rewrite Hp.
    pose proof (get_platforms_state names PLATFORMS) as Hst.
    destruct (get_platforms names PLATFORMS) as [r g] eqn:E.
    simpl in Hps, Hst. subst r g.
    exists (p :: ps). split; [done|].
    rewrite !fmap_cons. by rewrite Hnames, Hmeta, Hname, Hmeta'.
Qed.

(** [get_platforms] raises [PlatformError] at the first unregistered
    name. *)
Lemma get_platforms_unknown names :
  ¬ Forall (λ n, n ∈ keys PLATFORMS) names →
  ∃ msg, call (get_platforms names) = Raise (PlatformError msg).
Proof.
  induction names as [|n names IH]; intros Hbad.
  - by destruct Hbad.
  - unfold call in *. simpl. unfold mbind, Reg_bind, bind.
    destruct (decide (n ∈ keys PLATFORMS)) as [Hn|Hn].
    + destruct (get_platform_run n Hn) as (p & -> & _).
      destruct IH as [msg Hmsg].
      { intros Hall. apply Hbad. by constructor. }
      destruct (get_platforms names PLATFORMS) as [[ps|e] g];
        simpl in Hmsg; [done|]. exists msg. simpl. congruence.
    + pose proof (get_platform_unknown n Hn) as Hr. unfold call in Hr.
      destruct (get_platform n PLATFORMS) as [r g]. simpl in Hr. subst r.
      eauto.
Qed.

(** Where the host matches a registry entry, that entry is returned. *)
Lemma detect_supported system machine p :
  spec_matching_platform system machine = Some p →
  call (detect_current_platform system machine) = Ok [p].
Proof.
  unfold spec_matching_platform. run_reg.
  repeat case_decide; try done; intros [= <-]; try done.
Qed.

(** Off macOS, a host that matches no entry is refused. *)
Lemma detect_unsupported system machine :
  spec_matching_platform system machine = None →
  lower system ≠ "darwin" →
  ∃ msg, call (detect_current_platform system machine)
         = Raise (PlatformError msg).
Proof.
  unfold spec_matching_platform. run_reg.
  repeat case_decide; try done; eauto.
Qed.

(** On macOS every machine that is not ARM is taken for x86-64. *)
Lemma detect_darwin_default machine :
  lower machine ∉ ["arm64"; "aarch64"] →
  call (detect_current_platform "Darwin" machine) = Ok ["macos-x64"].
Proof. intros H. run_reg. by rewrite decide_False. Qed.

(** C6.  For every registered platform name [get_platform] returns the
    record whose [name] is the key; for every other name it raises a
    [PlatformError] whose message starts with "Unsupported platform" and
    contains each registered name; and every operation of [platforms.py]
    leaves the module global [PLATFORMS] as it found it. *)
Theorem get_platform_registry :
  (∀ key, key ∈ keys PLATFORMS →
     ∃ p, call (get_platform key) = Ok p ∧ name p = key)
  ∧ (∀ key, key ∉ keys PLATFORMS →
     ∃ msg, call (get_platform key) = Raise (PlatformError msg)
            ∧ startswith "Unsupported platform" msg = true
            ∧ ∀ k, k ∈ keys PLATFORMS → contains k msg = true)
  ∧ (∀ g key names system machine,
       (get_platform key g).2 = g
       ∧ (get_platforms names g).2 = g
       ∧ (list_available_platforms g).2 = g
       ∧ (detect_current_platform system machine g).2 = g).
Proof.
  split; [exact get_platform_known|]. split.
  - intros key Hk. eexists. split; [by apply get_platform_unknown|].
    split; [done|]. intros k Hin.
    by apply contains_app_r, contains_app_r, contains_app_r, contains_join.
  - intros. auto using get_platform_state, get_platforms_state,
      detect_current_platform_state.
Qed.

Lemma get_platform_registry_witness :
  ("linux-x64" ∈ keys PLATFORMS)
  ∧ ("amiga-m68k" ∉ keys PLATFORMS)
  ∧ (∃ p, call (get_platform "linux-x64") = Ok p ∧ name p = "linux-x64")
  ∧ (∃ msg, call (get_platform "amiga-m68k") = Raise (PlatformError msg)
            ∧ contains "macos-arm64" msg = true).
Proof.
  assert ("linux-x64" ∈ keys PLATFORMS) as Hin by by_decide.
  assert ("amiga-m68k" ∉ keys PLATFORMS) as Hout by by_decide.
  destruct get_platform_registry as (Hknown & Hunknown & _).
  split; [done|]. split; [done|]. split; [by apply Hknown|].
  destruct (Hunknown _ Hout) as (msg & Hmsg & _ & Hall).
  exists msg. split; [done|]. apply Hall. by_decide.
Defined.

(** C3.  On a macOS host whose machine is neither ARM nor x86-64 the
    detection returns ["macos-x64"] where the same machine on Linux and on
    Windows is refused with a [PlatformError]; no registry entry matches
    such a host. *)
Theorem detect_darwin_guesses_x64 :
  spec_matching_platform "Darwin" "i386" = None
  ∧ call (detect_current_platform "Darwin" "i386") = Ok ["macos-x64"]
  ∧ call (detect_current_platform "Linux" "i386")
    = Raise (PlatformError "Unsupported Linux architecture: i386")
  ∧ call (detect_current_platform "Windows" "i386")
    = Raise (PlatformError "Unsupported Windows architecture: i386").
Proof. repeat split; reflexivity. Qed.

(** ** The wheel matcher *)

Lemma match_wheel_windows filename :
  contains "win_amd64" (platform_tag filename) = true →
  call (match_wheel_to_platforms filename) = Ok ["windows-x64"].
Proof.
  intros H. run_reg.
  destruct (decide (platform_tag filename = "any")) as [E|_].
  - rewrite E in H. discriminate H.
  - by rewrite H.
Qed.

Lemma match_wheel_universal2 filename :
  contains "macosx" (platform_tag filename) = true →
  endswith "universal2" (platform_tag filename) = true →
  contains "win_amd64" (platform_tag filename) = false →
  has_manylinux_x86_64 (platform_tag filename) = false →
  call (match_wheel_to_platforms filename) = Ok ["macos-x64"; "macos-arm64"].
Proof.
  intros Hmac Huni Hwin Hlinux. run_reg.
  destruct (decide (platform_tag filename = "any")) as [E|_].
  - rewrite E in Hmac. discriminate Hmac.
  - rewrite Hwin, Hlinux, Hmac, Huni.
    rewrite (endswith_exclusive "universal2" "x86_64") by done.
    by rewrite (endswith_exclusive "universal2" "arm64") by done.
Qed.

(** The assertions of [test_match_wheel_to_platforms]. *)
Lemma test_match_wheel_to_platforms :
  call (match_wheel_to_platforms "somepackage-1.0-py3-none-any.whl")
    = Ok (keys PLATFORMS)
  ∧ call (match_wheel_to_platforms "somepackage-1.0-py3-none-win_amd64.whl")
    = Ok ["windows-x64"]
  ∧ call (match_wheel_to_platforms
            "somepackage-1.0-py3-none-manylinux2014_x86_64.whl")
    = Ok ["linux-x64"]
  ∧ call (match_wheel_to_platforms
            "somepackage-1.0-py3-none-macosx_10_15_x86_64.whl")
    = Ok ["macos-x64"]
  ∧ call (match_wheel_to_platforms
            "somepackage-1.0-py3-none-macosx_11_0_arm64.whl")
    = Ok ["macos-arm64"]
  ∧ call (match_wheel_to_platforms
            "somepackage-1.0-py3-none-macosx_10_15_universal2.whl")
    = Ok ["macos-x64"; "macos-arm64"].
Proof. repeat split; reflexivity. Qed.

(** C1.  The matcher returns all four registry keys for
    "pkg-1.0-py3-none-any.whl"; for every file name whose platform tag
    contains [win_amd64] (so for "pkg-1.0-py3-none-win_amd64.whl") it
    returns "windows-x64" and none of the other three; and for every file
    name whose platform tag is a macOS tag ending in [universal2], and is
    neither a Windows nor a manylinux tag (so for
    "pkg-1.0-py3-none-macosx_10_15_universal2.whl"), the result holds
    both "macos-x64" and "macos-arm64". *)
Theorem match_wheel_to_platforms_classifies :
  call (match_wheel_to_platforms "pkg-1.0-py3-none-any.whl")
    = Ok ["windows-x64"; "linux-x64"; "macos-arm64"; "macos-x64"]
  ∧ call (match_wheel_to_platforms "pkg-1.0-py3-none-any.whl")
    = Ok (keys PLATFORMS)
  ∧ (∀ filename,
       contains "win_amd64" (platform_tag filename) = true →
       ∃ l, call (match_wheel_to_platforms filename) = Ok l
            ∧ "windows-x64" ∈ l ∧ ("linux-x64" ∉ l)
            ∧ ("macos-arm64" ∉ l) ∧ ("macos-x64" ∉ l))
  ∧ call (match_wheel_to_platforms "pkg-1.0-py3-none-win_amd64.whl")
    = Ok ["windows-x64"]
  ∧ (∀ filename,
       contains "macosx" (platform_tag filename) = true →
       endswith "universal2" (platform_tag filename) = true →
       contains "win_amd64" (platform_tag filename) = false →
       has_manylinux_x86_64 (platform_tag filename) = false →
       ∃ l, call (match_wheel_to_platforms filename) = Ok l
            ∧ "macos-x64" ∈ l ∧ "macos-arm64" ∈ l)
  ∧ call (match_wheel_to_platforms
            "pkg-1.0-py3-none-macosx_10_15_universal2.whl")
    = Ok ["macos-x64"; "macos-arm64"].
Proof.
  split; [reflexivity|]. split; [reflexivity|]. split.
  { intros filename H. exists ["windows-x64"].
    split; [by apply match_wheel_windows|].
    repeat split; by_decide. }
  split; [reflexivity|]. split; [|reflexivity].
  intros filename Hmac Huni Hwin Hlinux. exists ["macos-x64"; "macos-arm64"].
  split; [by apply match_wheel_universal2|]. split; by_decide.
Qed.

Lemma match_wheel_to_platforms_classifies_witness :
  (∃ l, call (match_wheel_to_platforms
                "somepackage-1.0-py3-none-win_amd64.whl") = Ok l
        ∧ "windows-x64" ∈ l ∧ ("linux-x64" ∉ l)
        ∧ ("macos-arm64" ∉ l) ∧ ("macos-x64" ∉ l))
  ∧ (∃ l, call (match_wheel_to_platforms
                  "somepackage-1.0-py3-none-macosx_10_15_universal2.whl")
          = Ok l
          ∧ "macos-x64" ∈ l ∧ "macos-arm64" ∈ l).
Proof.
  destruct match_wheel_to_platforms_classifies
    as (_ & _ & Hwin & _ & Hmac & _).
  split.
  - apply Hwin. reflexivity.
  - apply Hmac; reflexivity.
Defined.

End PlatformFacts.

(** ** Construction of the builder *)

Module InitFacts.
Import Str StrFacts platforms builder fixtures.

Lemma first_manifest_dir_head entries :
  first_manifest_dir entries = head (manifest_dirs (Tree entries)).
Proof.
  induction entries as [|[item n] entries IH]; [done|].
  simpl. rewrite filter_cons. simpl.
  destruct (is_dir n && has_manifest n) eqn:E.
  - by rewrite decide_True.
  - by rewrite decide_False, IH by (by intros ?).
Qed.

Lemma first_fallback_head fs names :
  first_fallback fs names
  = head (filter (λ nm, Is_true (child_exists fs nm && child_is_dir fs nm))
            names).
Proof.
  induction names as [|nm names IH]; [done|].
  simpl. rewrite filter_cons.
  destruct (child_exists fs nm && child_is_dir fs nm) eqn:E.
  - by rewrite decide_True.
  - by rewrite decide_False, IH by (by intros ?).
Qed.

(** [_find_extension_dir] takes the first manifest directory, and the
    first conventional name when there is none. *)
Lemma find_extension_dir_spec dir entries :
  _find_extension_dir dir (Tree entries) =
    match head (manifest_dirs (Tree entries)
                  ++ fallback_dirs (Tree entries)) with
    | Some d => Ok (joinpath dir d)
    | None =>
        Raise (ConfigurationError
                 ("No extension directory found in " +:+ dir +:+ ". "
                    +:+ "Expected a directory containing blender_manifest.toml"))
    end.
Proof.
  unfold _find_extension_dir, fallback_dirs.
  rewrite first_manifest_dir_head, first_fallback_head.
  by destruct (manifest_dirs (Tree entries)).
Qed.

Lemma child_exists_Tree fs child :
  child_exists fs child = true → ∃ entries, fs = Tree entries.
Proof. destruct fs; [done..|eauto]. Qed.

Section init.
Context (fs : source) (o : parse_outcome) (cwd source_dir : string)
  (output_dir : option string) (python_version : string)
  (excluded_packages : option (gset string)).

Local Abbreviation init :=
  (__init__ fs o cwd source_dir output_dir python_version excluded_packages).

Lemma init_missing_source :
  source_exists fs = false →
  init = Raise (ConfigurationError
                  ("Source directory does not exist: " +:+ source_dir)).
Proof.
  intros H. unfold __init__, _validate_source_dir. by rewrite H.
Qed.

Lemma init_missing_pyproject :
  source_exists fs = true → child_exists fs "pyproject.toml" = false →
  init = Raise (ConfigurationError
                  ("No pyproject.toml found in " +:+ source_dir)).
Proof.
  intros H1 H2. unfold __init__, _validate_source_dir.
  by rewrite H1, H2.
Qed.

Lemma init_missing_extension_dir :
  child_exists fs "pyproject.toml" = true →
  manifest_dirs fs = [] → fallback_dirs fs = [] →
  init = Raise (ConfigurationError
                  ("No extension directory found in " +:+ source_dir
                     +:+ ". "
                     +:+ "Expected a directory containing blender_manifest.toml")).
Proof.
  intros H1 H2 H3. destruct (child_exists_Tree _ _ H1) as [entries ->].
  unfold __init__, _validate_source_dir. simpl source_exists.
  rewrite H1. simpl negb. cbv iota.
  by rewrite find_extension_dir_spec, H2, H3.
Qed.

Lemma init_ok_inv b :
  init = Ok b →
  source_exists fs = true
  ∧ child_exists fs "pyproject.toml" = true
  ∧ (∃ d, head (manifest_dirs fs ++ fallback_dirs fs) = Some d
          ∧ extension_dir b = joinpath source_dir d)
  ∧ (∃ doc p, o = Parsed doc ∧ project doc = Some p)
  ∧ builder.excluded_packages b = excluded_or_default excluded_packages.
Proof.
  unfold __init__, _validate_source_dir.
  destruct (source_exists fs) eqn:H1; [|done].
  destruct (child_exists fs "pyproject.toml") eqn:H2; [|done].
  destruct (child_exists_Tree _ _ H2) as [entries ->].
  simpl negb. cbv iota. rewrite find_extension_dir_spec.
  destruct (head _) as [d|] eqn:Hd; [|done].
  destruct o as [| |doc]; [done..|]. simpl.
  destruct (project doc) as [p|] eqn:Hp; [|done].
  intros [= <-]. simpl. eauto 10.
Qed.

Lemma init_raises_ConfigurationError e :
  init = Raise e → is_ConfigurationError e = true.
Proof.
  unfold __init__, _validate_source_dir.
  destruct (source_exists fs) eqn:H1; [|by intros [= <-]].
  destruct (child_exists fs "pyproject.toml") eqn:H2; [|by intros [= <-]].
  destruct (child_exists_Tree _ _ H2) as [entries ->].
  simpl negb. cbv iota. rewrite find_extension_dir_spec.
  destruct (head _) as [d|]; [|by intros [= <-]].
  destruct o as [| |doc]; simpl; [by intros [= <-]..|].
  destruct (project doc); [done | by intros [= <-]].
Qed.

Lemma init_ok doc p d :
  o = Parsed doc → project doc = Some p →
  child_exists fs "pyproject.toml" = true →
  head (manifest_dirs fs ++ fallback_dirs fs) = Some d →
  ∃ b, init = Ok b ∧ extension_dir b = joinpath source_dir d.
Proof.
  intros -> Hp H2 Hd. destruct (child_exists_Tree _ _ H2) as [entries ->].
  unfold __init__, _validate_source_dir. simpl source_exists.
  rewrite H2. simpl negb. cbv iota.
  rewrite find_extension_dir_spec, Hd. simpl. rewrite Hp.
  eexists. split; reflexivity.
Qed.
End init.

(** With two subdirectories that each hold a manifest the construction
    succeeds, on the first of them. *)
Lemma init_two_manifest_dirs_succeeds :
  length (manifest_dirs two_manifests) = 2
  ∧ ∃ b, __init__ two_manifests (Parsed temp_pyproject) "/cwd" "/tmp/p"
           None "3.11" None = Ok b
         ∧ extension_dir b = "/tmp/p/addon_a".
Proof. split; [reflexivity|]. eexists. split; reflexivity. Qed.

(** C7, amended.  The construction raises a [ConfigurationError] naming
    what is missing when the source directory does not exist, when it has
    no [pyproject.toml], and when it has neither a subdirectory holding a
    manifest nor a directory with a conventional name.  When it succeeds
    all three hold and the extension directory is the first subdirectory
    with a manifest in enumeration order (the first conventional name
    when there is none); any number of manifest directories, one or more,
    is accepted when the project file loads. *)
Theorem init_validates_layout
    (fs : source) (o : parse_outcome) (cwd source_dir : string)
    (output_dir : option string) (python_version : string)
    (excluded_packages : option (gset string)) :
  let init := __init__ fs o cwd source_dir output_dir python_version
                excluded_packages in
  (source_exists fs = false →
     init = Raise (ConfigurationError
                     ("Source directory does not exist: " +:+ source_dir)))
  ∧ (source_exists fs = true → child_exists fs "pyproject.toml" = false →
     init = Raise (ConfigurationError
                     ("No pyproject.toml found in " +:+ source_dir)))
  ∧ (child_exists fs "pyproject.toml" = true →
     manifest_dirs fs = [] → fallback_dirs fs = [] →
     init = Raise (ConfigurationError
                     ("No extension directory found in " +:+ source_dir
                        +:+ ". "
                        +:+ "Expected a directory containing blender_manifest.toml")))
  ∧ (∀ b, init = Ok b →
       source_exists fs = true
       ∧ child_exists fs "pyproject.toml" = true
       ∧ ∃ d, head (manifest_dirs fs ++ fallback_dirs fs) = Some d
              ∧ extension_dir b = joinpath source_dir d)
  ∧ (∀ doc p d rest,
       o = Parsed doc → project doc = Some p →
       child_exists fs "pyproject.toml" = true →
       manifest_dirs fs = d :: rest →
       ∃ b, init = Ok b ∧ extension_dir b = joinpath source_dir d)
  ∧ (∀ e, init = Raise e → is_ConfigurationError e = true).
Proof.
  intros init. split; [apply init_missing_source|].
  split; [apply init_missing_pyproject|].
  split; [apply init_missing_extension_dir|]. split; [|split].
  - intros b Hb. apply init_ok_inv in Hb as (? & ? & ? & _). auto.
  - intros doc p d rest Ho Hp H2 Hd. eapply init_ok; eauto.
    by rewrite Hd.
  - apply init_raises_ConfigurationError.
Qed.

Lemma init_validates_layout_witness :
  (__init__ Missing NotFound "/cwd" "/tmp/p" None "3.11" None
   = Raise (ConfigurationError "Source directory does not exist: /tmp/p"))
  ∧ (__init__ (Tree []) NotFound "/cwd" "/tmp/p" None "3.11" None
     = Raise (ConfigurationError "No pyproject.toml found in /tmp/p"))
  ∧ (__init__ (Tree [("pyproject.toml", File)]) (Parsed temp_pyproject)
       "/cwd" "/tmp/p" None "3.11" None
     = Raise (ConfigurationError
                ("No extension directory found in /tmp/p. "
                   +:+ "Expected a directory containing blender_manifest.toml")))
  ∧ (∃ b, __init__ two_manifests (Parsed temp_pyproject) "/cwd" "/tmp/p"
            None "3.11" None = Ok b
          ∧ extension_dir b = joinpath "/tmp/p" "addon_a").
Proof.
  split; [|split; [|split]].
  - by apply (init_validates_layout Missing NotFound "/cwd" "/tmp/p"
                None "3.11" None).
  - by apply (init_validates_layout (Tree []) NotFound "/cwd" "/tmp/p"
                None "3.11" None).
  - by apply (init_validates_layout (Tree [("pyproject.toml", File)])
                (Parsed temp_pyproject) "/cwd" "/tmp/p" None "3.11" None).
  - by eapply (init_validates_layout two_manifests (Parsed temp_pyproject)
                 "/cwd" "/tmp/p" None "3.11" None).
Defined.

(** ** The exclusion set *)

Lemma DEFAULT_EXCLUDED_nonempty : DEFAULT_EXCLUDED ≠ ∅.
Proof.
  intros H. assert ("numpy" ∈ DEFAULT_EXCLUDED) as Hin by by_decide.
  rewrite H in Hin. by apply not_elem_of_empty in Hin.
Qed.

Lemma excluded_or_default_nonempty excluded :
  excluded_or_default excluded ≠ ∅.
Proof.
  destruct excluded as [s|]; simpl; [|apply DEFAULT_EXCLUDED_nonempty].
  destruct (decide (s = ∅)); [apply DEFAULT_EXCLUDED_nonempty | done].
Qed.

(** C9.  A builder constructed with the empty set as [excluded_packages]
    is the builder constructed with [None]: it excludes the seven default
    packages.  Whatever is passed, the builder's exclusion set is not
    empty; a non-empty set is taken as given. *)
Theorem empty_exclusion_set_gives_default
    (fs : source) (o : parse_outcome) (cwd source_dir : string)
    (output_dir : option string) (python_version : string) :
  let init := __init__ fs o cwd source_dir output_dir python_version in
  init (Some ∅) = init None
  ∧ (∀ b, init (Some ∅) = Ok b →
       builder.excluded_packages b = DEFAULT_EXCLUDED
       ∧ ∀ pkg, pkg ∈ builder.excluded_packages b ↔
                pkg ∈ ["pyarrow"; "certifi"; "charset_normalizer"; "idna";
                       "numpy"; "requests"; "urllib3"])
  ∧ (∀ excluded b, init excluded = Ok b →
       builder.excluded_packages b ≠ ∅)
  ∧ (∀ s b, s ≠ ∅ → init (Some s) = Ok b →
       builder.excluded_packages b = s).
Proof.
  intros init. split; [reflexivity|]. split; [|split].
  - intros b Hb. apply init_ok_inv in Hb as (_ & _ & _ & _ & ->).
    split; [reflexivity|]. intros pkg. simpl.
    rewrite decide_True by done. unfold DEFAULT_EXCLUDED.
    rewrite !elem_of_union, !elem_of_singleton, !elem_of_cons, elem_of_nil.
    tauto.
  - intros excluded b Hb. apply init_ok_inv in Hb as (_ & _ & _ & _ & ->).
    apply excluded_or_default_nonempty.
  - intros s b Hs Hb. apply init_ok_inv in Hb as (_ & _ & _ & _ & ->).
    simpl. by rewrite decide_False.
Qed.

Lemma empty_exclusion_set_gives_default_witness :
  ∃ b, __init__ temp_project (Parsed temp_pyproject) "/cwd" "/tmp/p" None
         "3.11" (Some ∅) = Ok b
       ∧ builder.excluded_packages b = DEFAULT_EXCLUDED
       ∧ "numpy" ∈ builder.excluded_packages b.
Proof.
  destruct (init_ok temp_project (Parsed temp_pyproject) "/cwd" "/tmp/p"
              None "3.11" (Some ∅) temp_pyproject _ "test-extension"
              eq_refl eq_refl eq_refl eq_refl) as (b & Hb & _).
  exists b. split; [done|].
  destruct (empty_exclusion_set_gives_default temp_project
              (Parsed temp_pyproject) "/cwd" "/tmp/p" None "3.11")
    as (_ & Hdefault & _).
  destruct (Hdefault b Hb) as [Heq Hin]. split; [done|].
  apply Hin. by_decide.
Defined.

End InitFacts.

(** ** Filtering the wheels directory *)

Module FilterFacts.
Import Str StrFacts platforms builder fixtures.

Lemma filter_all {A} (P : A → Prop) `{∀ x, Decision (P x)} (l : list A) :
  (∀ x, x ∈ l → P x) → filter P l = l.
Proof.
  induction l as [|x l IH]; intros HP; [done|].
  rewrite filter_cons_True by (apply HP; left).
  f_equal. apply IH. intros y Hy. apply HP. by right.
Qed.

Lemma filter_ext_in {A} (P Q : A → Prop)
    `{∀ x, Decision (P x)} `{∀ x, Decision (Q x)} (l : list A) :
  (∀ x, x ∈ l → P x ↔ Q x) → filter P l = filter Q l.
Proof.
  induction l as [|x l IH]; intros HPQ; [done|].
  rewrite !filter_cons.
  assert (filter P l = filter Q l) as ->.
  { apply IH. intros y Hy. apply HPQ. by right. }
  destruct (decide (P x)) as [HP|HP], (decide (Q x)) as [HQ|HQ];
    try done; exfalso; apply (HPQ x) in HP || apply HP, (HPQ x);
    try done; by left.
Qed.

Lemma StronglySorted_filter {A} (R : relation A) (P : A → Prop)
    `{∀ x, Decision (P x)} (l : list A) :
  StronglySorted R l → StronglySorted R (filter P l).
Proof.
  induction 1 as [|x l Hl IH Hx]; [constructor|].
  rewrite filter_cons. destruct (decide (P x)); [|done].
  constructor; [done|]. rewrite Forall_forall in Hx.
  apply Forall_forall. intros y [_ Hy]%list_elem_of_filter. auto.
Qed.

(** *** Sorting *)

Lemma sort_names_sorted l : StronglySorted String.le (sort_names l).
Proof. apply StronglySorted_merge_sort; apply _. Qed.

Lemma sort_names_perm l : sort_names l ≡ₚ l.
Proof. apply merge_sort_Permutation. Qed.

(** The sorted list depends on the names only, not on their order. *)
Lemma sort_names_order_independent l1 l2 :
  l1 ≡ₚ l2 → sort_names l1 = sort_names l2.
Proof.
  intros H. apply (StronglySorted_unique String.le);
    [apply sort_names_sorted..|].
  by rewrite !sort_names_perm.
Qed.

Lemma compare_app p a b :
  String.compare (p +:+ a) (p +:+ b) = String.compare a b.
Proof.
  induction p as [|c p IH]; simpl; [done|].
  unfold Ascii.compare. by rewrite N.compare_refl.
Qed.

Lemma le_app p a b : String.le a b → String.le (p +:+ a) (p +:+ b).
Proof. unfold String.le, String.leb. by rewrite compare_app. Qed.

(** *** Removing files *)

Lemma unlink_all_ok to_remove listing :
  NoDup to_remove → (∀ w, w ∈ to_remove → w ∈ listing) →
  unlink_all to_remove listing
  = (None, filter (λ n, n ∉ to_remove) listing).
Proof.
  revert listing.
  induction to_remove as [|w rest IH]; intros listing Hnd Hsub; simpl.
  - rewrite filter_all; [done|]. intros x _. apply not_elem_of_nil.
  - apply NoDup_cons in Hnd as [Hw Hnd].
    unfold unlink. rewrite decide_True by (apply Hsub; left).
    rewrite IH; [|done|].
    + f_equal. rewrite list_filter_filter. apply list_filter_iff.
      intros x. rewrite not_elem_of_cons. tauto.
    + intros w' Hw'. apply list_elem_of_filter. split.
      * intros ->. done.
      * apply Hsub. by right.
Qed.

(** *** [should_exclude] is a case-insensitive substring test *)

Lemma should_exclude_spec excluded whl :
  should_exclude excluded whl = true ↔
  ∃ pkg, pkg ∈ excluded ∧ ∃ a b, lower whl = a +:+ lower pkg +:+ b.
Proof.
  unfold should_exclude. rewrite existsb_exists. split.
  - intros (pkg & Hin & Hc). exists pkg. split.
    + by apply elem_of_elements, list_elem_of_In.
    + by apply contains_spec.
  - intros (pkg & Hin & Hc). exists pkg. split.
    + by apply list_elem_of_In, elem_of_elements.
    + by apply contains_spec.
Qed.

Section filter.
Context (self : ExtensionBuilder).

Local Abbreviation excluded w :=
  (Is_true (should_exclude (excluded_packages self) w)).
Local Abbreviation is_whl n := (Is_true (endswith ".whl" n)).

(** What [_filter_wheels] computes on a directory without repeated
    names: the wheels that are not excluded, sorted, and the directory
    without the excluded wheels. *)
Lemma filter_wheels_run listing :
  NoDup listing →
  _filter_wheels self listing
  = (Ok (filter (λ w, ¬ excluded w) (sort_names (glob_whl listing))),
     filter (λ n, ¬ (is_whl n ∧ excluded n)) listing).
Proof.
  intros Hnd. unfold _filter_wheels.
  rewrite unlink_all_ok.
  - f_equal. apply filter_ext_in. intros n Hn.
    rewrite list_elem_of_filter, sort_names_perm.
    unfold glob_whl. rewrite list_elem_of_filter.
    unfold excluded, is_whl. tauto.
  - apply NoDup_filter. rewrite sort_names_perm.
    by apply NoDup_filter.
  - intros w [_ Hw]%list_elem_of_filter.
    rewrite sort_names_perm in Hw.
    by apply list_elem_of_filter in Hw as [_ Hw].
Qed.

Lemma filter_wheels_kept_perm listing :
  filter (λ w, ¬ excluded w) (sort_names (glob_whl listing))
  ≡ₚ filter (λ w, ¬ excluded w) (glob_whl listing).
Proof. by rewrite sort_names_perm. Qed.

Lemma filter_wheels_kept_sorted listing :
  StronglySorted String.le
    (filter (λ w, ¬ excluded w) (sort_names (glob_whl listing))).
Proof. apply StronglySorted_filter, sort_names_sorted. Qed.

Lemma glob_whl_perm l1 l2 : l1 ≡ₚ l2 → glob_whl l1 ≡ₚ glob_whl l2.
Proof. intros H. unfold glob_whl. by rewrite H. Qed.
End filter.

End FilterFacts.

(** ** The manifest document *)

Module ManifestFacts.
Import Str StrFacts platforms builder fixtures FilterFacts.

Lemma doc_get_set_eq k v doc : doc_get (doc_set k v doc) k = Some v.
Proof.
  induction doc as [|[k' v'] doc IH]; simpl.
  - by rewrite decide_True.
  - destruct (decide (k = k')) as [->|Hk]; simpl.
    + by rewrite decide_True.
    + by rewrite decide_False.
Qed.

Lemma doc_get_set_ne k k' v doc :
  k ≠ k' → doc_get (doc_set k v doc) k' = doc_get doc k'.
Proof.
  intros Hk. induction doc as [|[k0 v0] doc IH]; simpl.
  - by rewrite decide_False.
  - destruct (decide (k = k0)) as [->|Hk0]; simpl.
    + by rewrite !decide_False.
    + by rewrite IH.
Qed.

(** In memory only the two fields change: every other key of the
    document reads as before. *)
Lemma updated_document_frame platform_objects wheel_files manifest k :
  k ≠ "wheels" → k ≠ "platforms" →
  doc_get (updated_document platform_objects wheel_files manifest) k
  = doc_get (default [] manifest) k.
Proof.
  intros H1 H2. unfold updated_document.
  by rewrite !doc_get_set_ne.
Qed.

Lemma updated_document_wheels platform_objects wheel_files manifest :
  doc_get (updated_document platform_objects wheel_files manifest) "wheels"
  = Some (TArray (wheel_paths wheel_files)).
Proof.
  unfold updated_document.
  by rewrite doc_get_set_ne, doc_get_set_eq.
Qed.

Lemma updated_document_platforms platform_objects wheel_files manifest :
  doc_get (updated_document platform_objects wheel_files manifest)
    "platforms"
  = Some (TArray (metadata <$> platform_objects)).
Proof. unfold updated_document. by rewrite doc_get_set_eq. Qed.

Lemma wheel_paths_sorted wheel_files :
  StronglySorted String.le wheel_files →
  StronglySorted String.le (wheel_paths wheel_files).
Proof.
  apply StronglySorted_fmap. intros x y. apply (le_app "./wheels/").
Qed.

(** [update_manifest] on a directory without repeated names and with
    registered platforms writes the formatted dump of the updated
    document. *)
Lemma update_manifest_run self platforms platform_objects listing manifest :
  NoDup listing →
  call (get_platforms platforms) = Ok platform_objects →
  update_manifest self platforms listing manifest
  = (Ok (format_arrays
           (dumps (updated_document platform_objects
                     (filter (λ w, ¬ Is_true (should_exclude
                                                (excluded_packages self) w))
                        (sort_names (glob_whl listing)))
                     manifest))),
     filter (λ n, ¬ (Is_true (endswith ".whl" n)
                     ∧ Is_true (should_exclude (excluded_packages self) n)))
       listing).
Proof.
  intros Hnd Hp. unfold update_manifest.
  by rewrite Hp, filter_wheels_run.
Qed.

End ManifestFacts.

(** ** The claims about the wheels directory and the manifest *)

Module WheelClaims.
Import Str StrFacts platforms builder fixtures FilterFacts ManifestFacts.

(** C4.  On a wheels directory without repeated names [_filter_wheels]
    returns the wheel files that no excluded package name matches, where
    a name matches when its lower-case form occurs in the lower-case file
    name; it removes from the directory exactly the wheel files that are
    matched and leaves every other entry in place.  With one excluded and
    one kept wheel in the directory, in either order, the kept wheel is
    the only file left and the only element returned. *)
Theorem filter_wheels_partitions
    (self : ExtensionBuilder) (listing : list string) :
  NoDup listing →
  let excluded w :=
    Is_true (should_exclude (excluded_packages self) w) in
  let is_whl n := Is_true (endswith ".whl" n) in
  ∃ kept remaining,
    _filter_wheels self listing = (Ok kept, remaining)
    ∧ kept ≡ₚ filter (λ w, ¬ excluded w) (glob_whl listing)
    ∧ remaining = filter (λ n, ¬ (is_whl n ∧ excluded n)) listing
    ∧ (∀ w, w ∈ glob_whl listing → excluded w →
         (w ∉ remaining) ∧ (w ∉ kept))
    ∧ (∀ w, w ∈ glob_whl listing → ¬ excluded w →
         w ∈ remaining ∧ w ∈ kept)
    ∧ (∀ w, excluded w ↔
            ∃ pkg, pkg ∈ excluded_packages self
                   ∧ ∃ a b, lower w = a +:+ lower pkg +:+ b)
    ∧ (∀ x k, listing ≡ₚ [x; k] →
         is_whl x → is_whl k → excluded x → ¬ excluded k →
         kept = [k] ∧ remaining = [k]).
Proof.
  intros Hnd excluded is_whl. eexists _, _.
  split; [by apply filter_wheels_run|].
  split; [apply filter_wheels_kept_perm|]. split; [done|].
  split; [|split; [|split]].
  - intros w [Hwhl Hin]%list_elem_of_filter Hex. split.
    + rewrite list_elem_of_filter. tauto.
    + rewrite list_elem_of_filter. tauto.
  - intros w Hw Hex. split.
    + apply list_elem_of_filter. split; [tauto|].
      by apply list_elem_of_filter in Hw as [_ Hw].
    + apply list_elem_of_filter. split; [done|].
      by rewrite sort_names_perm.
  - intros w. unfold excluded. rewrite Is_true_true.
    apply should_exclude_spec.
  - intros x k Hperm Hx Hk Hex Hnex.
    assert (filter (λ w, ¬ excluded w) [x; k] = [k]) as Hkeep.
    { rewrite filter_cons_False by tauto. by rewrite filter_cons_True. }
    assert (filter (λ n, ¬ (is_whl n ∧ excluded n)) [x; k] = [k]) as Hrem.
    { rewrite filter_cons_False by tauto.
      rewrite filter_cons_True by tauto. done. }
    assert (glob_whl [x; k] = [x; k]) as Hglob.
    { unfold glob_whl. rewrite filter_cons_True by done.
      by rewrite filter_cons_True. }
    assert (filter (λ w, ¬ excluded w) [x; k] ≡ₚ [k]) as Hkeep'
      by by rewrite Hkeep.
    assert (filter (λ n, ¬ (is_whl n ∧ excluded n)) [x; k] ≡ₚ [k]) as Hrem'
      by by rewrite Hrem.
    split; apply Permutation_singleton_r.
    + rewrite sort_names_perm, (glob_whl_perm _ _ Hperm), Hglob.
      exact Hkeep'.
    + rewrite Hperm. exact Hrem'.
Qed.

Lemma filter_wheels_partitions_witness :
  NoDup two_wheels
  ∧ _filter_wheels temp_builder two_wheels
    = (Ok ["click-8.1.7-py3-none-any.whl"],
       ["click-8.1.7-py3-none-any.whl"]).
Proof.
  assert (NoDup two_wheels) as Hnd by by_decide.
  split; [done|].
  destruct (filter_wheels_partitions temp_builder two_wheels Hnd)
    as (kept & remaining & -> & _ & _ & _ & _ & _ & Hpair).
  destruct (Hpair "NumPy-1.26.4-cp311-cp311-win_amd64.whl"
              "click-8.1.7-py3-none-any.whl") as [-> ->];
    [done| | | | |done]; by_decide.
Defined.

End WheelClaims.

(** ** Configured platforms *)

Module ConfigFacts.
Import Str StrFacts platforms builder fixtures.

Lemma filter_unregistered_nil names :
  filter (λ n, n ∉ keys PLATFORMS) names = [] ↔
  Forall (λ n, n ∈ keys PLATFORMS) names.
Proof.
  rewrite Forall_forall. split.
  - intros H n Hn. destruct (decide (n ∈ keys PLATFORMS)) as [|Hbad]; [done|].
    by destruct (filter_nil_not_elem_of _ _ n H Hbad).
  - intros H. induction names as [|n names IH]; [done|].
    rewrite filter_cons_False.
    + apply IH. intros m Hm. apply H. by right.
    + intros Hbad. apply Hbad, H. by left.
Qed.

(** C8.  [get_configured_platforms] returns the empty list when the
    project file has no platform list; returns the configured list when
    every name in it is registered; and otherwise raises a
    [ConfigurationError] whose message starts with "Invalid platforms"
    and contains every unregistered name of the list. *)
Theorem get_configured_platforms_validates (self : ExtensionBuilder) :
  (configured_platforms (project_config self) = None →
     get_configured_platforms self = Ok [])
  ∧ (∀ names,
       configured_platforms (project_config self) = Some names →
       Forall (λ n, n ∈ keys PLATFORMS) names →
       get_configured_platforms self = Ok names)
  ∧ (∀ names,
       configured_platforms (project_config self) = Some names →
       ¬ Forall (λ n, n ∈ keys PLATFORMS) names →
       ∃ msg, get_configured_platforms self
              = Raise (ConfigurationError msg)
              ∧ startswith "Invalid platforms" msg = true
              ∧ ∀ n, n ∈ names → n ∉ keys PLATFORMS →
                     contains n msg = true).
Proof.
  unfold get_configured_platforms. split; [by intros ->|]. split.
  - intros names -> Hall. apply filter_unregistered_nil in Hall.
    by rewrite decide_True.
  - intros names -> Hbad. rewrite <-filter_unregistered_nil in Hbad.
    rewrite decide_False by done. eexists. split; [done|].
    split; [done|]. intros n Hn Hnk.
    apply contains_app_r, contains_join, list_elem_of_filter. done.
Qed.

Lemma get_configured_platforms_validates_witness :
  get_configured_platforms (builder_with DEFAULT_EXCLUDED [] None) = Ok []
  ∧ get_configured_platforms
      (builder_with DEFAULT_EXCLUDED [] (Some ["windows-x64"; "linux-x64"]))
    = Ok ["windows-x64"; "linux-x64"]
  ∧ ∃ msg, get_configured_platforms
             (builder_with DEFAULT_EXCLUDED []
                (Some ["linux-x64"; "invalid-platform"]))
           = Raise (ConfigurationError msg)
           ∧ contains "invalid-platform" msg = true.
Proof.
  split; [|split].
  - destruct (get_configured_platforms_validates
                (builder_with DEFAULT_EXCLUDED [] None)) as (Hnone & _).
    by apply Hnone.
  - destruct (get_configured_platforms_validates
                (builder_with DEFAULT_EXCLUDED []
                   (Some ["windows-x64"; "linux-x64"])))
      as (_ & Hgood & _).
    apply Hgood; [done|]. by_decide.
  - destruct (get_configured_platforms_validates
                (builder_with DEFAULT_EXCLUDED []
                   (Some ["linux-x64"; "invalid-platform"])))
      as (_ & _ & Hbad).
    destruct (Hbad ["linux-x64"; "invalid-platform"] eq_refl)
      as (msg & Hmsg & _ & Hall); [by_decide|].
    exists msg. split; [done|]. apply Hall; by_decide.
Defined.

End ConfigFacts.

(** ** Downloading wheels *)

Module DownloadFacts.
Import Str StrFacts platforms builder fixtures PlatformFacts InitFacts.

Section download.
Context {World : Type}.
Context (run : list string → World → option string * World).
Context (mkdir clean_dir : World → World).

Lemma download_loop_outcomes self objs fl su w :
  ∃ w', download_loop run self objs fl su w
        = (fl ++ failed (outcomes run self objs w),
           su ++ succeeded (outcomes run self objs w), w').
Proof.
  revert fl su w. induction objs as [|p objs IH]; intros fl su w; simpl.
  - exists w. unfold failed, succeeded. simpl. by rewrite !app_nil_r.
  - destruct (run (pip_download self p) w) as [[msg|] w1].
    + destruct (IH (fl ++ [name p]) su w1) as [w' ->]. exists w'.
      unfold failed, succeeded. rewrite !filter_cons. simpl.
      by rewrite <-List.app_assoc.
    + destruct (IH fl (su ++ [name p]) w1) as [w' ->]. exists w'.
      unfold failed, succeeded. rewrite !filter_cons. simpl.
      by rewrite <-List.app_assoc.
Qed.

(** The result of [download_wheels] when there is something to
    download, in terms of the outcome of each download. *)
Lemma download_wheels_result self platforms objs (cl ignore : bool) w :
  dependencies (project_config self) ≠ [] →
  call (get_platforms platforms) = Ok objs →
  let w0 := if cl then clean_dir (mkdir w) else mkdir w in
  let tr := outcomes run self objs w0 in
  (download_wheels run mkdir clean_dir self platforms cl ignore w).1
  = if decide (failed tr ≠ [] ∧ succeeded tr = []) then
      Raise (DependencyError
               ("Failed to download wheels for all platforms: "
                  +:+ join ", " (failed tr)))
    else if decide (failed tr ≠ []) then
      if ignore then Ok (Returns (succeeded tr))
      else Raise (DependencyError
                    ("Failed to download wheels for platforms: "
                       +:+ join ", " (failed tr)))
    else Ok (Returns (succeeded tr)).
Proof.
  intros Hdeps Hobjs w0 tr. unfold download_wheels.
  rewrite Hobjs, decide_False by done. fold w0.
  destruct (download_loop_outcomes self objs [] [] w0) as [w' ->].
  fold tr. simpl.
  repeat case_decide; try done. by destruct ignore.
Qed.

(** With dependencies to download, a call that returns hands back the
    platforms whose download returned. *)
Lemma download_wheels_returns self platforms objs (cl ignore : bool) w r :
  dependencies (project_config self) ≠ [] →
  call (get_platforms platforms) = Ok objs →
  (download_wheels run mkdir clean_dir self platforms cl ignore w).1
  = Ok r →
  r = Returns (succeeded
                 (outcomes run self objs
                    (if cl then clean_dir (mkdir w) else mkdir w))).
Proof.
  intros Hdeps Hobjs. rewrite (download_wheels_result _ _ objs) by done.
  repeat case_decide; try destruct ignore; congruence.
Qed.

(** When some download fails and none returns, [DependencyError]. *)
Lemma download_wheels_all_fail self platforms objs (cl ignore : bool) w :
  dependencies (project_config self) ≠ [] →
  call (get_platforms platforms) = Ok objs →
  let tr := outcomes run self objs
              (if cl then clean_dir (mkdir w) else mkdir w) in
  failed tr ≠ [] → succeeded tr = [] →
  ∃ msg,
    (download_wheels run mkdir clean_dir self platforms cl ignore w).1
    = Raise (DependencyError msg).
Proof.
  intros Hdeps Hobjs tr Hf Hs.
  rewrite (download_wheels_result _ _ objs) by done. fold tr.
  rewrite decide_True by done. eauto.
Qed.

(** A mix of failures and successes is tolerated when
    [ignore_platform_errors] is set, and raises otherwise. *)
Lemma download_wheels_mixed self platforms objs (cl ignore : bool) w :
  dependencies (project_config self) ≠ [] →
  call (get_platforms platforms) = Ok objs →
  let tr := outcomes run self objs
              (if cl then clean_dir (mkdir w) else mkdir w) in
  failed tr ≠ [] → succeeded tr ≠ [] →
  (download_wheels run mkdir clean_dir self platforms cl ignore w).1
  = if ignore then Ok (Returns (succeeded tr))
    else Raise (DependencyError
                  ("Failed to download wheels for platforms: "
                     +:+ join ", " (failed tr))).
Proof.
  intros Hdeps Hobjs tr Hf Hs.
  rewrite (download_wheels_result _ _ objs) by done. fold tr.
  rewrite decide_False by tauto. by rewrite decide_True.
Qed.

(** With [ignore_platform_errors] off, one failure is enough to raise. *)
Lemma download_wheels_strict self platforms objs (cl : bool) w :
  dependencies (project_config self) ≠ [] →
  call (get_platforms platforms) = Ok objs →
  failed (outcomes run self objs
            (if cl then clean_dir (mkdir w) else mkdir w)) ≠ [] →
  ∃ msg,
    (download_wheels run mkdir clean_dir self platforms cl false w).1
    = Raise (DependencyError msg).
Proof.
  intros Hdeps Hobjs Hf.
  rewrite (download_wheels_result _ _ objs) by done.
  case_decide; [eauto|]. rewrite decide_True by done. eauto.
Qed.

(** C2.  A project whose [pyproject.toml] lists no dependencies loads,
    and on the builder so constructed [download_wheels] returns [None]
    where a list of platforms is due: no download is attempted, none
    fails, nothing is raised, and the value handed back is not the
    (empty) list of the platforms that succeeded.  This holds for
    every setting of the two flags and every state of the world. *)
Theorem download_wheels_no_dependencies_returns_None
    (cl ignore : bool) (w : World) :
  ∃ self,
    __init__ temp_project (Parsed no_dependencies) "/cwd" "/tmp/p" None
      "3.11" None = Ok self
    ∧ dependencies (project_config self) = []
    ∧ download_wheels run mkdir clean_dir self ["linux-x64"] cl ignore w
      = (Ok ReturnsNone, w)
    ∧ ReturnsNone ≠ Returns [].
Proof. eexists. repeat split; try reflexivity. discriminate. Qed.
End download.

End DownloadFacts.

(** ** Rewriting the manifest *)

Module ManifestClaims.
Import Str StrFacts platforms builder fixtures ManifestFacts.

(** C5.  A manifest whose [tagline] holds a backslash does not keep it:
    the text that [update_manifest] writes has a slash in its place, and
    is character for character the text written for the manifest that
    had the slash to begin with.  In memory the field is untouched; the
    substitution happens in the replacements applied to the whole
    serialized document. *)
Theorem update_manifest_rewrites_backslash :
  doc_get manifest_backslash "tagline"
    = Some (TString ("C:" +:+ backslash +:+ "addons"))
  ∧ doc_get manifest_slash "tagline" = Some (TString "C:/addons")
  ∧ (∀ platform_objects wheel_files,
       doc_get (updated_document platform_objects wheel_files
                  (Some manifest_backslash)) "tagline"
       = doc_get manifest_backslash "tagline")
  ∧ (update_manifest temp_builder ["linux-x64"] [] (Some manifest_backslash)).1
    = Ok ("id = " +:+ dump_string "test-extension" +:+ newline
            +:+ "tagline = " +:+ dump_string "C:/addons" +:+ newline
            +:+ "wheels = []" +:+ newline
            +:+ "platforms = [" +:+ newline
            +:+ tab +:+ dump_string "linux-x64" +:+ "," +:+ newline
            +:+ "]" +:+ newline)
  ∧ (update_manifest temp_builder ["linux-x64"] [] (Some manifest_backslash)).1
    = (update_manifest temp_builder ["linux-x64"] [] (Some manifest_slash)).1.
Proof.
  split; [reflexivity|]. split; [reflexivity|].
  split; [|split; vm_compute; reflexivity].
  intros platform_objects wheel_files.
  by rewrite updated_document_frame.
Qed.

End ManifestClaims.

(** * Further properties *)

(** ** Looking platforms up *)

Module LookupFacts.
Import Str StrFacts platforms PlatformFacts.

Lemma get_platform_entry key :
  key ∈ keys PLATFORMS →
  ∃ p, get_platform key PLATFORMS = (Ok p, PLATFORMS)
       ∧ (key, p) ∈ PLATFORMS ∧ name p = key ∧ metadata p = key.
Proof.
  rewrite PLATFORMS_keys, !elem_of_cons, elem_of_nil.
  intros [->|[->|[->|[->|[]]]]]; eexists;
    (split; [reflexivity|]); (split; [repeat constructor|]);
    split; reflexivity.
Qed.

Lemma get_platforms_cons_known n p names :
  get_platform n PLATFORMS = (Ok p, PLATFORMS) →
  call (get_platforms (n :: names))
  = match call (get_platforms names) with
    | Ok ps => Ok (p :: ps)
    | Raise e => Raise e
    end.
Proof.
  intros Hp. unfold call. simpl. unfold mbind, Reg_bind, bind. rewrite Hp.
  by destruct (get_platforms names PLATFORMS) as [[ps|e] g].
Qed.

Lemma get_platforms_cons_unknown n names :
  n ∉ keys PLATFORMS →
  call (get_platforms (n :: names))
  = Raise (PlatformError
             ("Unsupported platform '" +:+ n +:+ "'. Available: "
                +:+ join ", " (keys PLATFORMS))).
Proof.
  intros Hn. pose proof (get_platform_unknown n Hn) as Hr.
  unfold call in *. simpl. unfold mbind, Reg_bind, bind.
  destruct (get_platform n PLATFORMS) as [r g]. simpl in Hr. by subst r.
Qed.

(** X1.  [get_platforms] is all or nothing.  When every requested name is
    registered it returns one record per name, in the order of the request,
    each the registry's entry for that name (so its [name] and [metadata]
    are the name asked for); and it returns only then. *)
Theorem get_platforms_all_or_nothing (names : list string) :
  (Forall (λ n, n ∈ keys PLATFORMS) names →
     ∃ ps, call (get_platforms names) = Ok ps
           ∧ length ps = length names
           ∧ name <$> ps = names
           ∧ metadata <$> ps = names
           ∧ Forall (λ p, (name p, p) ∈ PLATFORMS) ps)
  ∧ (∀ ps, call (get_platforms names) = Ok ps →
       Forall (λ n, n ∈ keys PLATFORMS) names).
Proof.
  split.
  - induction 1 as [|n names Hn _ (ps & Hps & Hlen & Hname & Hmeta & Hin)].
    + by exists [].
    + destruct (get_platform_entry n Hn) as (p & Hp & Hp_in & Hp_n & Hp_m).
      exists (p :: ps). rewrite (get_platforms_cons_known n p) by done.
      rewrite Hps. split; [done|]. rewrite !fmap_cons. simpl.
      rewrite Hlen, Hname, Hmeta, Hp_n, Hp_m. repeat split; try done.
      constructor; [by rewrite Hp_n | done].
  - intros ps Hps.
    destruct (decide (Forall (λ n, n ∈ keys PLATFORMS) names)) as [|Hbad];
      [done|].
    destruct (get_platforms_unknown names Hbad) as [msg Hmsg]. congruence.
Qed.

Lemma get_platforms_all_or_nothing_witness :
  ∃ ps, call (get_platforms ["macos-arm64"; "windows-x64"]) = Ok ps
        ∧ name <$> ps = ["macos-arm64"; "windows-x64"]
        ∧ pypi_suffix <$> ps = ["macosx_12_0_arm64"; "win_amd64"].
Proof.
  destruct (get_platforms_all_or_nothing ["macos-arm64"; "windows-x64"])
    as [Hok _].
  destruct Hok as (ps & Hps & _ & Hname & _); [by_decide|].
  exists ps. split; [done|]. split; [done|].
  assert (Ok ps = call (get_platforms ["macos-arm64"; "windows-x64"])) as Hc
    by done.
  vm_compute in Hc. injection Hc as ->. reflexivity.
Defined.

(** X2.  [get_platforms] stops at the first name that is not registered:
    the [PlatformError] it raises is the one [get_platform] raises for that
    name, naming it and listing the registered names, whatever follows it
    in the request. *)
Theorem get_platforms_first_unknown (good : list string) (bad : string)
    (rest : list string) :
  Forall (λ n, n ∈ keys PLATFORMS) good →
  bad ∉ keys PLATFORMS →
  call (get_platforms (good ++ bad :: rest))
  = Raise (PlatformError
             ("Unsupported platform '" +:+ bad +:+ "'. Available: "
                +:+ join ", " (keys PLATFORMS))).
Proof.
  intros Hgood Hbad. induction Hgood as [|n good Hn _ IH].
  - rewrite app_nil_l. by rewrite get_platforms_cons_unknown.
  - destruct (get_platform_entry n Hn) as (p & Hp & _).
    rewrite <-app_comm_cons.
    by rewrite (get_platforms_cons_known n p), IH.
Qed.

Lemma get_platforms_first_unknown_witness :
  call (get_platforms ["linux-x64"; "linux-arm64"; "amiga-m68k"])
  = Raise (PlatformError
             ("Unsupported platform 'linux-arm64'. Available: "
                +:+ "windows-x64, linux-x64, macos-arm64, macos-x64")).
Proof.
  apply (get_platforms_first_unknown ["linux-x64"] "linux-arm64"
           ["amiga-m68k"]); by_decide.
Defined.

(** X3.  Whatever [detect_current_platform] returns is accepted by
    [get_platforms]: the result is a list of exactly one name, and that
    name is registered. *)
Theorem detect_current_platform_registered (system machine : string)
    (detected : list string) :
  call (detect_current_platform system machine) = Ok detected →
  (∃ n, detected = [n] ∧ n ∈ keys PLATFORMS)
  ∧ ∃ ps, call (get_platforms detected) = Ok ps ∧ name <$> ps = detected.
Proof.
  intros Hd.
  assert (∃ n, detected = [n] ∧ n ∈ keys PLATFORMS) as (n & -> & Hn).
  { revert Hd. run_reg.
    repeat case_decide; intros [= <-]; eexists; (split; [done|]); by_decide. }
  split; [eauto|].
  destruct (get_platforms_known [n]) as (ps & Hps & Hname & _);
    [by apply Forall_singleton|].
  eauto.
Qed.

Lemma detect_current_platform_registered_witness :
  call (detect_current_platform "Linux" "x86_64") = Ok ["linux-x64"]
  ∧ ∃ ps, call (get_platforms ["linux-x64"]) = Ok ps
          ∧ name <$> ps = ["linux-x64"].
Proof.
  split; [reflexivity|].
  by apply (detect_current_platform_registered "Linux" "x86_64").
Defined.

(** X18.  [list_available_platforms] returns, without repetition, exactly
    the names that [get_platform] accepts. *)
Theorem list_available_platforms_accepted :
  ∃ available,
    call list_available_platforms = Ok available
    ∧ NoDup available
    ∧ ∀ n, n ∈ available ↔ ∃ p, call (get_platform n) = Ok p.
Proof.
  exists (keys PLATFORMS). split; [reflexivity|]. split; [by_decide|].
  intros n. split.
  - intros Hn. destruct (get_platform_known n Hn) as (p & Hp & _). eauto.
  - intros [p Hp]. destruct (decide (n ∈ keys PLATFORMS)) as [|Hbad]; [done|].
    rewrite get_platform_unknown in Hp by done. done.
Qed.

End LookupFacts.

(** ** Downloading, continued *)

Module DownloadMore.
Import Str StrFacts platforms builder fixtures PlatformFacts LookupFacts
  DownloadFacts.

Section download.
Context {World : Type}.
Context (run : list string → World → option string * World).
Context (mkdir clean_dir : World → World).

Lemma outcomes_names self objs w :
  (outcomes run self objs w).*1 = name <$> objs.
Proof.
  revert w. induction objs as [|p objs IH]; intros w; simpl; [done|].
  destruct (run (pip_download self p) w) as [[msg|] w1];
    rewrite fmap_cons, IH; done.
Qed.

Lemma succeeded_sublist tr : succeeded tr `sublist_of` tr.*1.
Proof. unfold succeeded. apply fmap_sublist, sublist_filter. Qed.

Lemma failed_sublist tr : failed tr `sublist_of` tr.*1.
Proof. unfold failed. apply fmap_sublist, sublist_filter. Qed.

Lemma succeeded_failed_perm tr : succeeded tr ++ failed tr ≡ₚ tr.*1.
Proof.
  unfold succeeded, failed. rewrite <-fmap_app.
  by rewrite filter_app_complement.
Qed.

(** X4.  [download_wheels] validates the platform names before anything
    else: with a name that is not registered it raises [PlatformError] and
    leaves the world as it was (no directory made or emptied, no command
    run), whether or not the project has dependencies. *)
Theorem download_wheels_unknown_platform (self : ExtensionBuilder)
    (platforms : list string) (cl ignore : bool) (w : World) :
  ¬ Forall (λ n, n ∈ keys PLATFORMS) platforms →
  ∃ msg,
    download_wheels run mkdir clean_dir self platforms cl ignore w
    = (Raise (PlatformError msg), w).
Proof.
  intros Hbad. destruct (get_platforms_unknown platforms Hbad) as [msg Hmsg].
  exists msg. unfold download_wheels. by rewrite Hmsg.
Qed.

(** X5.  With dependencies to download and registered platforms, the two
    accumulators of the loop decide the outcome.  The call returns exactly
    when no download failed, or when some succeeded and
    [ignore_platform_errors] is set, and then returns the platforms that
    succeeded; otherwise it raises a [DependencyError] whose message
    contains the name of every platform that failed. *)
Theorem download_wheels_outcome (self : ExtensionBuilder)
    (platforms : list string) (objs : list Platform) (cl ignore : bool)
    (w : World) :
  dependencies (project_config self) ≠ [] →
  call (get_platforms platforms) = Ok objs →
  let tr := outcomes run self objs
              (if cl then clean_dir (mkdir w) else mkdir w) in
  let r := (download_wheels run mkdir clean_dir self platforms cl ignore w).1 in
  (failed tr = [] ∨ (succeeded tr ≠ [] ∧ ignore = true) →
     r = Ok (Returns (succeeded tr)))
  ∧ (failed tr ≠ [] → succeeded tr = [] ∨ ignore = false →
     ∃ msg, r = Raise (DependencyError msg)
            ∧ ∀ n, n ∈ failed tr → contains n msg = true).
Proof.
  intros Hdeps Hobjs tr r. unfold r.
  rewrite (download_wheels_result run mkdir clean_dir _ _ objs) by done.
  fold tr. split.
  - intros [Hf|[Hs ->]].
    + rewrite decide_False by tauto. by rewrite decide_False by tauto.
    + rewrite decide_False by tauto. by case_decide.
  - intros Hf Hor. case_decide as Hall.
    + eexists. split; [done|]. intros n Hn.
      by apply contains_app_r, contains_join.
    + rewrite decide_True by done. destruct Hor as [Hs| ->]; [tauto|].
      eexists. split; [done|]. intros n Hn.
      by apply contains_app_r, contains_join.
Qed.

(** X6.  The loop tries every requested platform once, in order, and goes
    on after a failure: the platforms that succeeded and those that failed
    together are the request, and a list that [download_wheels] returns is
    a subsequence of the request. *)
Theorem download_wheels_returns_sublist (self : ExtensionBuilder)
    (platforms : list string) (cl ignore : bool) (w : World)
    (l : list string) :
  (download_wheels run mkdir clean_dir self platforms cl ignore w).1
  = Ok (Returns l) →
  l `sublist_of` platforms
  ∧ ∃ objs fl w0 w',
      call (get_platforms platforms) = Ok objs
      ∧ download_loop run self objs [] [] w0 = (fl, l, w')
      ∧ l ++ fl ≡ₚ platforms.
Proof.
  intros Hr.
  destruct (decide (Forall (λ n, n ∈ keys PLATFORMS) platforms)) as [Hok|Hbad].
  2: { destruct (get_platforms_unknown platforms Hbad) as [msg Hmsg].
       unfold download_wheels in Hr. by rewrite Hmsg in Hr. }
  destruct (get_platforms_known platforms Hok) as (objs & Hobjs & Hnames & _).
  destruct (decide (dependencies (project_config self) = [])) as [Hd|Hd].
  { unfold download_wheels in Hr. rewrite Hobjs, decide_True in Hr by done.
    done. }
  apply (download_wheels_returns run mkdir clean_dir _ _ objs) in Hr;
    [|done..]. injection Hr as ->.
  set (w0 := if cl then clean_dir (mkdir w) else mkdir w).
  split.
  - rewrite <-Hnames, <-(outcomes_names self objs w0).
    apply succeeded_sublist.
  - destruct (download_loop_outcomes run self objs [] [] w0) as [w' Hloop].
    exists objs, (failed (outcomes run self objs w0)), w0, w'.
    split; [done|]. split; [done|].
    by rewrite succeeded_failed_perm, outcomes_names, Hnames.
Qed.

End download.

Lemma download_wheels_unknown_platform_witness :
  ∃ msg,
    download_wheels index_linux_only S S temp_builder
      ["linux-x64"; "solaris-sparc"] true true 0
    = (Raise (PlatformError msg), 0).
Proof.
  apply (download_wheels_unknown_platform index_linux_only S S
           temp_builder ["linux-x64"; "solaris-sparc"] true true 0).
  by_decide.
Defined.

Lemma download_wheels_outcome_witness :
  (download_wheels index_linux_only id id temp_builder
     ["windows-x64"; "linux-x64"] true true 0).1
  = Ok (Returns ["linux-x64"])
  ∧ ∃ msg,
      (download_wheels index_linux_only id id temp_builder
         ["windows-x64"; "linux-x64"] true false 0).1
      = Raise (DependencyError msg)
      ∧ contains "windows-x64" msg = true.
Proof.
  set (run := index_linux_only).
  destruct (get_platforms_known ["windows-x64"; "linux-x64"])
    as (objs & Hobjs & _); [by_decide|].
  assert (objs = [mkPlatform "windows-x64" "win_amd64" "windows-x64";
                  mkPlatform "linux-x64" "manylinux2014_x86_64" "linux-x64"])
    as Heq.
  { assert (Ok objs = call (get_platforms ["windows-x64"; "linux-x64"])) as Hc
      by done.
    vm_compute in Hc. by injection Hc. }
  split.
  - destruct (download_wheels_outcome run id id temp_builder
                ["windows-x64"; "linux-x64"] objs true true 0) as [Hret _];
      [done|done|].
    rewrite Hret; [by rewrite Heq|]. right. split; [|done]. by rewrite Heq.
  - destruct (download_wheels_outcome run id id temp_builder
                ["windows-x64"; "linux-x64"] objs true false 0) as [_ Hraise];
      [done|done|].
    destruct Hraise as (msg & Hmsg & Hall); [by rewrite Heq|by right|].
    exists msg. split; [done|]. apply Hall. rewrite Heq. by_decide.
Defined.

Lemma download_wheels_returns_sublist_witness :
  (download_wheels index_linux_only id id temp_builder
     ["windows-x64"; "linux-x64"] true true 0).1
  = Ok (Returns ["linux-x64"])
  ∧ ["linux-x64"] `sublist_of` ["windows-x64"; "linux-x64"].
Proof.
  set (run := index_linux_only).
  assert ((download_wheels run id id temp_builder ["windows-x64"; "linux-x64"]
             true true 0).1 = Ok (Returns ["linux-x64"])) as Hr
    by (vm_compute; reflexivity).
  split; [done|].
  by apply (download_wheels_returns_sublist run id id temp_builder
              ["windows-x64"; "linux-x64"] true true 0 ["linux-x64"]).
Defined.

End DownloadMore.

(** ** Filtering, continued *)

Module FilterMore.
Import Str StrFacts platforms builder fixtures PlatformFacts LookupFacts
  FilterFacts ManifestFacts.

Lemma filter_none {A} (P : A → Prop) `{∀ x, Decision (P x)} (l : list A) :
  (∀ x, x ∈ l → ¬ P x) → filter P l = [].
Proof.
  induction l as [|x l IH]; intros HP; [done|].
  rewrite filter_cons_False by (apply HP; left).
  apply IH. intros y Hy. apply HP. by right.
Qed.

(** X7.  [_filter_wheels] is idempotent: run again on the directory it
    left, it removes nothing and returns the same list. *)
Theorem filter_wheels_idempotent (self : ExtensionBuilder)
    (listing kept remaining : list string) :
  NoDup listing →
  _filter_wheels self listing = (Ok kept, remaining) →
  _filter_wheels self remaining = (Ok kept, remaining).
Proof.
  intros Hnd. rewrite filter_wheels_run by done. intros [= <- <-].
  rewrite filter_wheels_run by by apply NoDup_filter.
  f_equal; [f_equal|].
  - apply (StronglySorted_unique String.le);
      [apply StronglySorted_filter, sort_names_sorted..|].
    rewrite !sort_names_perm. unfold glob_whl.
    rewrite !list_filter_filter.
    apply reflexive_eq, list_filter_iff. intros x. tauto.
  - rewrite list_filter_filter. apply list_filter_iff. intros x. tauto.
Qed.

Lemma filter_wheels_idempotent_witness :
  NoDup three_wheels
  ∧ _filter_wheels temp_builder three_wheels
    = (Ok ["click-8.1.7-py3-none-any.whl"; "rich-13.7.0-py3-none-any.whl"],
       ["rich-13.7.0-py3-none-any.whl"; "click-8.1.7-py3-none-any.whl"])
  ∧ _filter_wheels temp_builder
      ["rich-13.7.0-py3-none-any.whl"; "click-8.1.7-py3-none-any.whl"]
    = (Ok ["click-8.1.7-py3-none-any.whl"; "rich-13.7.0-py3-none-any.whl"],
       ["rich-13.7.0-py3-none-any.whl"; "click-8.1.7-py3-none-any.whl"]).
Proof.
  assert (NoDup three_wheels) as Hnd by by_decide.
  assert (_filter_wheels temp_builder three_wheels
          = (Ok ["click-8.1.7-py3-none-any.whl";
                 "rich-13.7.0-py3-none-any.whl"],
             ["rich-13.7.0-py3-none-any.whl";
              "click-8.1.7-py3-none-any.whl"])) as Hrun
    by (vm_compute; reflexivity).
  split; [done|]. split; [done|].
  exact (filter_wheels_idempotent temp_builder three_wheels _ _ Hnd Hrun).
Defined.

(** X8.  The empty string as an excluded package matches every file name:
    a builder whose exclusion set holds it keeps no wheel at all and leaves
    only the entries that are not wheels. *)
Theorem filter_wheels_empty_package_name (self : ExtensionBuilder)
    (listing : list string) :
  "" ∈ excluded_packages self →
  NoDup listing →
  _filter_wheels self listing
  = (Ok [], filter (λ n, ¬ Is_true (endswith ".whl" n)) listing).
Proof.
  intros Hin Hnd.
  assert (∀ w, Is_true (should_exclude (excluded_packages self) w)) as Hall.
  { intros w. apply Is_true_true, should_exclude_spec.
    exists "". split; [done|]. by exists "", (lower w). }
  rewrite filter_wheels_run by done. f_equal; [f_equal|].
  - apply filter_none. intros x _ Hx. apply Hx, Hall.
  - apply list_filter_iff. intros x. specialize (Hall x). tauto.
Qed.

Lemma filter_wheels_empty_package_name_witness :
  _filter_wheels (builder_with {[ "" ]} ["click"] None)
    ["click-8.1.7-py3-none-any.whl"; "README.txt"]
  = (Ok [], ["README.txt"]).
Proof.
  rewrite (filter_wheels_empty_package_name
             (builder_with {[ "" ]} ["click"] None)
             ["click-8.1.7-py3-none-any.whl"; "README.txt"]);
    [reflexivity | by_decide | by_decide].
Defined.

End FilterMore.

(** ** The manifest, continued *)

Module ManifestMore.
Import Str StrFacts platforms builder fixtures PlatformFacts LookupFacts
  FilterFacts ManifestFacts.

(** X9.  [update_manifest] validates the platform names before it touches
    the disk: with a name that is not registered it raises [PlatformError],
    deletes no wheel (excluded ones included) and writes nothing. *)
Theorem update_manifest_unknown_platform (self : ExtensionBuilder)
    (platforms listing : list string) (manifest : option document) :
  ¬ Forall (λ n, n ∈ keys PLATFORMS) platforms →
  ∃ msg, update_manifest self platforms listing manifest
         = (Raise (PlatformError msg), listing).
Proof.
  intros Hbad. destruct (get_platforms_unknown platforms Hbad) as [msg Hmsg].
  exists msg. unfold update_manifest. by rewrite Hmsg.
Qed.

Lemma update_manifest_unknown_platform_witness :
  ∃ msg, update_manifest temp_builder ["linux-arm64"] three_wheels None
         = (Raise (PlatformError msg), three_wheels).
Proof.
  apply (update_manifest_unknown_platform temp_builder ["linux-arm64"]
           three_wheels None).
  by_decide.
Defined.

Lemma doc_keys_set k v doc :
  doc_keys (doc_set k v doc)
  = if decide (k ∈ doc_keys doc) then doc_keys doc else doc_keys doc ++ [k].
Proof.
  unfold doc_keys. induction doc as [|[k' v'] doc IH]; [done|].
  cbn [doc_set]. rewrite fmap_cons. cbn [fst].
  destruct (decide (k = k')) as [->|Hk].
  - rewrite fmap_cons. cbn [fst]. rewrite decide_True; [done | by left].
  - rewrite fmap_cons, IH. cbn [fst].
    destruct (decide (k ∈ doc.*1)) as [Hin|Hin].
    + rewrite decide_True; [done | by right].
    + rewrite decide_False; [done|]. rewrite not_elem_of_cons. done.
Qed.

Lemma doc_set_in_keys k v doc : k ∈ doc_keys (doc_set k v doc).
Proof.
  rewrite doc_keys_set. case_decide; [done|].
  apply elem_of_app. right. by left.
Qed.

Lemma doc_set_set k v1 v2 doc :
  doc_set k v2 (doc_set k v1 doc) = doc_set k v2 doc.
Proof.
  induction doc as [|[k' v'] doc IH]; simpl.
  - by rewrite decide_True.
  - destruct (decide (k = k')) as [->|Hk]; simpl.
    + by rewrite decide_True.
    + by rewrite decide_False, IH.
Qed.

Lemma doc_set_comm k k' v v' doc :
  k ≠ k' → k ∈ doc_keys doc →
  doc_set k v (doc_set k' v' doc) = doc_set k' v' (doc_set k v doc).
Proof.
  intros Hne. unfold doc_keys.
  induction doc as [|[k0 v0] doc IH]; [by intros ?%elem_of_nil|].
  intros Hin. simpl.
  destruct (decide (k' = k0)) as [->|Hk'], (decide (k = k0)) as [->|Hk];
    simpl; try done.
  - by rewrite decide_False, decide_True.
  - by rewrite decide_True, decide_False.
  - rewrite !decide_False by done. f_equal. apply IH.
    apply elem_of_cons in Hin as [?|?]; [done|done].
Qed.

(** X11.  The last update wins: the document an update produces does not
    depend on what an earlier update stored, and repeating an update
    changes nothing. *)
Theorem updated_document_last_wins (objs1 objs2 : list Platform)
    (wheels1 wheels2 : list string) (manifest : option document) :
  updated_document objs2 wheels2
    (Some (updated_document objs1 wheels1 manifest))
  = updated_document objs2 wheels2 manifest.
Proof.
  unfold updated_document. simpl default.
  rewrite (doc_set_comm "wheels" "platforms")
    by (done || apply doc_set_in_keys).
  by rewrite !doc_set_set.
Qed.

(** X12.  On registered platforms and a directory without repeated names
    [update_manifest] succeeds, and the [platforms] field of the document
    it writes is the list of names it was given, in the order given. *)
Theorem update_manifest_platforms_field (self : ExtensionBuilder)
    (platforms listing : list string) (manifest : option document) :
  Forall (λ n, n ∈ keys PLATFORMS) platforms →
  NoDup listing →
  ∃ doc remaining,
    update_manifest self platforms listing manifest
    = (Ok (format_arrays (dumps doc)), remaining)
    ∧ doc_get doc "platforms" = Some (TArray platforms)
    ∧ ∀ k, k ≠ "wheels" → k ≠ "platforms" →
           doc_get doc k = doc_get (default [] manifest) k.
Proof.
  intros Hok Hnd.
  destruct (get_platforms_known platforms Hok) as (ps & Hps & _ & Hmeta).
  eexists _, _. split; [by apply update_manifest_run|].
  split.
  - by rewrite updated_document_platforms, Hmeta.
  - intros k Hw Hp. by apply updated_document_frame.
Qed.

Lemma update_manifest_platforms_field_witness :
  ∃ doc remaining,
    update_manifest temp_builder ["macos-x64"; "linux-x64"] three_wheels
      (Some manifest_slash)
    = (Ok (format_arrays (dumps doc)), remaining)
    ∧ doc_get doc "platforms" = Some (TArray ["macos-x64"; "linux-x64"])
    ∧ doc_get doc "id" = Some (TString "test-extension").
Proof.
  destruct (update_manifest_platforms_field temp_builder
              ["macos-x64"; "linux-x64"] three_wheels (Some manifest_slash))
    as (doc & remaining & Hrun & Hp & Hframe); [by_decide | by_decide |].
  exists doc, remaining. split; [done|]. split; [done|].
  by rewrite Hframe.
Defined.

End ManifestMore.

(** ** Cleaning temporary files *)

Module CleanFacts.
Import Str StrFacts platforms builder fixtures FilterFacts FilterMore.

Lemma length_filter_or {A} (P Q : A → Prop)
    `{∀ x, Decision (P x)} `{∀ x, Decision (Q x)} (l : list A) :
  length (filter (λ x, P x ∨ Q x) l)
  = length (filter P l) + length (filter Q (filter (λ x, ¬ P x) l)).
Proof.
  induction l as [|x l IH]; [done|].
  rewrite !filter_cons.
  destruct (decide (P x)) as [HP|HP].
  - rewrite decide_True, decide_False by tauto. simpl. by rewrite IH.
  - rewrite (decide_True (P := ¬ P x)) by done. rewrite filter_cons.
    destruct (decide (Q x)) as [HQ|HQ].
    + rewrite decide_True by tauto. simpl. rewrite IH. lia.
    + rewrite decide_False by tauto. by rewrite IH.
Qed.

(** What the loop of [clean_files] computes: the files whose name ends with
    one of the patterns are counted once each and removed. *)
Lemma clean_loop_spec patterns files n :
  clean_loop patterns files n
  = (n + length (filter (λ f, Exists (λ p, Is_true (endswith p (basename f)))
                                patterns) files),
     filter (λ f, ¬ Exists (λ p, Is_true (endswith p (basename f))) patterns)
       files).
Proof.
  revert files n. induction patterns as [|p patterns IH]; intros files n.
  - simpl. rewrite filter_none, filter_all; simpl.
    + f_equal. lia.
    + intros f _. by intros ?%Exists_nil.
    + intros f _. by intros ?%Exists_nil.
  - cbn [clean_loop]. unfold rglob_suffix.
    rewrite (filter_ext_in (λ f, f ∉ filter _ files)
               (λ f, ¬ Is_true (endswith p (basename f))) files).
    2: { intros f Hf. rewrite list_elem_of_filter. tauto. }
    rewrite IH. f_equal.
    + rewrite (list_filter_iff
                 (λ f, Exists (λ q, Is_true (endswith q (basename f)))
                         (p :: patterns))
                 (λ f, Is_true (endswith p (basename f))
                       ∨ Exists (λ q, Is_true (endswith q (basename f)))
                           patterns) files)
        by (intros f; apply Exists_cons).
      rewrite length_filter_or. lia.
    + rewrite list_filter_filter. apply list_filter_iff.
      intros f. rewrite Exists_cons. tauto.
Qed.

(** X13.  [clean_files] deletes exactly the files whose name ends with one
    of the patterns, at any depth, and returns how many it deleted: a file
    that several patterns match is counted once, the other files stay in
    place, and a second call finds nothing to delete and returns 0. *)
Theorem clean_files_removes_matches (patterns : option (list string))
    (files : list string) :
  let matches f :=
    Exists (λ p, Is_true (endswith p (basename f)))
      (default DEFAULT_PATTERNS patterns) in
  let count := (clean_files patterns files).1 in
  let left := (clean_files patterns files).2 in
  left = filter (λ f, ¬ matches f) files
  ∧ count = length (filter matches files)
  ∧ count + length left = length files
  ∧ clean_files patterns left = (0, left).
Proof.
  intros matches count left. unfold count, left, clean_files.
  rewrite !clean_loop_spec. cbn [fst snd].
  split; [done|]. split; [done|]. split.
  - cbn [Nat.add]. rewrite <-length_app, filter_app_complement. done.
  - f_equal.
    + rewrite filter_none; [done|].
      intros f [Hf _]%list_elem_of_filter. done.
    + apply filter_all. by intros f [Hf _]%list_elem_of_filter.
Qed.

(** The files of [test_clean_files], in a project that has sources and a
    nested session file as well. *)
Lemma test_clean_files :
  clean_files None
    ["__init__.py"; "test.blend1"; "session.MNSession";
     "assets/old/scene.blend1"; "assets/scene.blend"]
  = (3, ["__init__.py"; "assets/scene.blend"]).
Proof. vm_compute. reflexivity. Qed.

End CleanFacts.

(** ** Building *)

Module BuildFacts.
Import Str StrFacts platforms builder fixtures PlatformFacts LookupFacts
  FilterFacts ManifestFacts DownloadFacts DownloadMore FilterMore CleanFacts.

Lemma endswith_refl s : endswith s s = true.
Proof. destruct s; cbn [endswith]; case_decide; congruence. Qed.

Lemma endswith_tail suf c s :
  endswith suf s = true → endswith suf (String c s) = true.
Proof. intros H. cbn [endswith]. case_decide; [done|]. exact H. Qed.

Lemma endswith_trans a b s :
  endswith a b = true → endswith b s = true → endswith a s = true.
Proof.
  intros Hab. induction s as [|c s IH]; cbn [endswith].
  - destruct (decide ("" = b)) as [<-|]; [|done]. intros _. exact Hab.
  - destruct (decide (String c s = b)) as [<-|_]; [intros _; exact Hab|].
    intros H. apply IH in H. destruct (decide (String c s = a)); done.
Qed.

Lemma rsplit_last_suffix sep s : endswith (rsplit_last sep s) s = true.
Proof.
  induction s as [|c s IH]; [done|]. cbn [rsplit_last].
  destruct (contains (String sep "") s).
  - by apply endswith_tail.
  - destruct (decide (c = sep)).
    + apply endswith_tail, endswith_refl.
    + apply endswith_refl.
Qed.

(** A file name ending in [.whl] matches none of the default patterns. *)
Lemma wheel_not_temporary n :
  Is_true (endswith ".whl" n) →
  ¬ Exists (λ p, Is_true (endswith p (basename n))) DEFAULT_PATTERNS.
Proof.
  intros Hwhl%Is_true_true. unfold DEFAULT_PATTERNS.
  rewrite !Exists_cons, Exists_nil.
  intros [H|[H|[]]]; apply Is_true_true in H;
    apply (endswith_trans _ _ n) in H; try apply rsplit_last_suffix.
  - by rewrite (endswith_exclusive ".whl" ".blend1" n) in H.
  - by rewrite (endswith_exclusive ".whl" ".MNSession" n) in H.
Qed.

Section build.
Context {Env : Type}.
Context (run run_blender : list string → Disk Env → option string * Disk Env).
Context (bpy : option string) (which : string → option string).

Local Abbreviation temporary f :=
  (Exists (λ p, Is_true (endswith p (basename f))) DEFAULT_PATTERNS).

Lemma clean_default_files_run (w : Disk Env) :
  clean_default_files w
  = (length (filter (λ f, temporary f) (disk_files w))
       + length (filter (λ f, temporary f) (disk_wheels w)),
     {| disk_env := disk_env w;
        disk_wheels := filter (λ f, ¬ temporary f) (disk_wheels w);
        disk_files := filter (λ f, ¬ temporary f) (disk_files w) |}).
Proof.
  unfold clean_default_files, clean_files. simpl default.
  by rewrite !clean_loop_spec.
Qed.

(** X14.  The cleaning that [build_extension] starts with removes every
    file under the extension directory whose name ends in [.blend1] or
    [.MNSession], the wheels directory included, and never a wheel: the
    wheel files are the same before and after, so the list just written to
    the manifest still describes the directory. *)
Theorem clean_default_files_keeps_wheels (w : Disk Env) :
  let w' := (clean_default_files w).2 in
  glob_whl (disk_wheels w') = glob_whl (disk_wheels w)
  ∧ disk_env w' = disk_env w
  ∧ (∀ f, f ∈ disk_files w' ++ disk_wheels w' → ¬ temporary f)
  ∧ (∀ f, f ∈ disk_files w → ¬ temporary f → f ∈ disk_files w').
Proof using Type.
  clear run run_blender bpy which.
  rewrite clean_default_files_run. cbn [snd disk_wheels disk_files disk_env].
  split; [|split; [done|split]].
  - unfold glob_whl. rewrite list_filter_filter. apply list_filter_iff.
    intros n. pose proof (wheel_not_temporary n). tauto.
  - intros f [Hf|Hf]%elem_of_app; by apply list_elem_of_filter in Hf as [? _].
  - intros f Hf Ht. by apply list_elem_of_filter.
Qed.

(** X15.  [build_extension] deletes the temporary files before it looks
    for Blender.  When [bpy] cannot be imported and neither [blender] nor
    [blender.exe] is on the path it raises [BlenderError] with the files
    already gone and no command run; when [bpy] imports, its binary path is
    the executable and the path is not searched; and a non-zero exit of the
    command becomes a [BuildError] carrying the captured error output. *)
Theorem build_extension_outcome (self : ExtensionBuilder) (split : bool)
    (w : Disk Env) :
  let w1 := (clean_default_files w).2 in
  let finish exe :=
    match run_blender (blender_command self exe split) w1 with
    | (None, w') => (Ok tt, w')
    | (Some stderr, w') =>
        (Raise (BuildError
                  ("Extension build failed: "
                     +:+ (if decide (stderr = "") then "Unknown error"
                          else stderr))), w')
    end in
  (bpy = None → truthy (which "blender") = false →
   truthy (which "blender.exe") = false →
     ∃ msg, build_extension run_blender bpy which self split w
            = (Raise (BlenderError msg), w1))
  ∧ (∀ exe, bpy = Some exe →
       build_extension run_blender bpy which self split w = finish exe)
  ∧ (∀ exe, bpy = None → which "blender" = Some exe → exe ≠ "" →
       build_extension run_blender bpy which self split w = finish exe)
  ∧ (∀ exe, bpy = None → truthy (which "blender") = false →
       which "blender.exe" = Some exe → exe ≠ "" →
       build_extension run_blender bpy which self split w = finish exe).
Proof.
  intros w1 finish. unfold build_extension, _find_blender_executable.
  fold w1. cbn [first_which]. repeat split.
  - intros -> -> ->. eauto.
  - by intros exe ->.
  - intros exe -> Hw Hne. unfold truthy. rewrite Hw.
    by rewrite decide_False.
  - intros exe -> -> Hw Hne. unfold truthy. rewrite Hw.
    by rewrite decide_False.
Qed.

(** X16.  [build] has nothing to build, and says so with a [BuildError],
    in two cases: a project without dependencies, for which it raises
    before the disk is touched, whatever the platforms; and an empty list
    of platforms.  In both no manifest is written and Blender is not
    started. *)
Theorem build_nothing_to_build (self : ExtensionBuilder)
    (platforms : list string) (cl split ignore : bool)
    (manifest : option document) (w : Disk Env) :
  (dependencies (project_config self) = [] →
   Forall (λ n, n ∈ keys PLATFORMS) platforms →
     build run run_blender bpy which self platforms cl split ignore
       manifest w
     = (Raise (BuildError "No platforms were successfully processed"),
        None, w))
  ∧ (dependencies (project_config self) ≠ [] →
     build run run_blender bpy which self [] cl split ignore manifest w
     = (Raise (BuildError "No platforms were successfully processed"),
        None, if cl then _clean_wheels_dir_disk w else w)).
Proof.
  split.
  - intros Hd Hok.
    destruct (get_platforms_known platforms Hok) as (objs & Hobjs & _).
    unfold build, download_wheels. rewrite Hobjs, decide_True by done.
    done.
  - intros Hd. unfold build, download_wheels.
    change (call (get_platforms [])) with (@Ok (list Platform) []).
    cbv beta iota. rewrite decide_False by done. cbn [download_loop].
    rewrite !decide_False by tauto. by destruct cl.
Qed.


End build.

Lemma clean_default_files_keeps_wheels_witness :
  glob_whl (disk_wheels (clean_default_files disk_before).2)
  = glob_whl (disk_wheels disk_before)
  ∧ "assets/scene.blend" ∈ disk_files (clean_default_files disk_before).2
  ∧ ("assets/scene.blend1" ∉ disk_files (clean_default_files disk_before).2).
Proof.
  destruct (clean_default_files_keeps_wheels disk_before)
    as (Hw & _ & Hgone & Hkeep).
  split; [done|]. split.
  - apply Hkeep; by_decide.
  - intros Hin. apply (Hgone "assets/scene.blend1").
    + apply elem_of_app. by left.
    + by_decide.
Defined.

Lemma build_extension_outcome_witness :
  (∃ msg, build_extension blender_ok None (λ _, None) temp_builder true
            disk_before
          = (Raise (BlenderError msg),
             {| disk_env := 0;
                disk_wheels := ["stale-0.1-py3-none-any.whl"];
                disk_files := ["__init__.py"; "blender_manifest.toml";
                               "assets/scene.blend"] |}))
  ∧ build_extension blender_fails (Some "") which_blender temp_builder
      false disk_before
    = (Raise (BuildError "Extension build failed: Error: invalid manifest"),
       (clean_default_files disk_before).2)
  ∧ build_extension blender_ok None which_blender temp_builder true
      disk_before
    = (Ok tt, (clean_default_files disk_before).2).
Proof.
  split; [|split].
  - destruct (build_extension_outcome blender_ok None (λ _, None)
                temp_builder true disk_before) as (Hnone & _).
    destruct Hnone as [msg Hmsg]; [done..|]. exists msg. exact Hmsg.
  - destruct (build_extension_outcome blender_fails (Some "") which_blender
                temp_builder false disk_before) as (_ & Hbpy & _).
    by rewrite (Hbpy "").
  - destruct (build_extension_outcome blender_ok None which_blender
                temp_builder true disk_before) as (_ & _ & Hwhich & _).
    by rewrite (Hwhich "/usr/bin/blender").
Defined.

Lemma build_nothing_to_build_witness :
  build pip_linux_only blender_ok None which_blender
    (builder_with DEFAULT_EXCLUDED [] None) ["linux-x64"] true true true
    None disk_before
  = (Raise (BuildError "No platforms were successfully processed"),
     None, disk_before)
  ∧ build pip_linux_only blender_ok None which_blender temp_builder []
      true true true None disk_before
    = (Raise (BuildError "No platforms were successfully processed"),
       None, _clean_wheels_dir_disk disk_before).
Proof.
  split.
  - apply (build_nothing_to_build pip_linux_only blender_ok None
             which_blender (builder_with DEFAULT_EXCLUDED [] None)
             ["linux-x64"] true true true None disk_before);
      [done | by_decide].
  - by apply (build_nothing_to_build pip_linux_only blender_ok None
                which_blender temp_builder [] true true true None
                disk_before).
Defined.


End BuildFacts.

(** ** The order of the wheel list on either host *)

Module HostOrder.
Import Str StrFacts platforms builder fixtures PlatformFacts FilterFacts
  ManifestFacts.

#[local] Instance path_le_trans (h : host) : Transitive (path_le h).
Proof. intros a b c. unfold path_le. apply transitivity. Qed.

#[local] Instance path_le_total (h : host) : Total (path_le h).
Proof. intros a b. unfold path_le. apply total, _. Qed.

Lemma lower_app a b : lower (a +:+ b) = lower a +:+ lower b.
Proof. induction a as [|c a IH]; simpl; [done | by rewrite IH]. Qed.

Lemma normcase_wheel_path h whl :
  normcase h ("./wheels/" +:+ whl) = "./wheels/" +:+ normcase h whl.
Proof. destruct h; [done|]. unfold normcase. by rewrite lower_app. Qed.

Lemma path_le_wheel_path h a b :
  path_le h a b → path_le h ("./wheels/" +:+ a) ("./wheels/" +:+ b).
Proof. unfold path_le. rewrite !normcase_wheel_path. apply le_app. Qed.

Lemma NoDup_fmap_eq {A B} (f : A → B) (l : list A) x y :
  NoDup (f <$> l) → x ∈ l → y ∈ l → f x = f y → x = y.
Proof.
  induction l as [|z l IH]; [by intros _ ?%elem_of_nil|].
  rewrite fmap_cons, NoDup_cons.
  intros [Hz Hnd] [->|Hx]%elem_of_cons [->|Hy]%elem_of_cons Hf; [done|..].
  - destruct Hz. rewrite Hf. by apply list_elem_of_fmap_2.
  - destruct Hz. rewrite <-Hf. by apply list_elem_of_fmap_2.
  - by apply IH.
Qed.

Lemma sort_paths_sorted h l : StronglySorted (path_le h) (sort_paths h l).
Proof. apply StronglySorted_merge_sort; apply _. Qed.

Lemma sort_paths_perm h l : sort_paths h l ≡ₚ l.
Proof. apply merge_sort_Permutation. Qed.

(** Where the host tells all names apart, the sorted list depends on the
    names only, not on the order in which they come. *)
Lemma sort_paths_order_independent h l1 l2 :
  NoDup (normcase h <$> l1) → l1 ≡ₚ l2 →
  sort_paths h l1 = sort_paths h l2.
Proof.
  intros Hnd Hperm.
  apply (StronglySorted_unique_strong (path_le h));
    [|apply sort_paths_sorted..|by rewrite !sort_paths_perm].
  intros x1 x2 Hx1 Hx2 H12 H21.
  rewrite sort_paths_perm in Hx1. rewrite sort_paths_perm, <-Hperm in Hx2.
  apply (NoDup_fmap_eq (normcase h) l1); [done..|].
  by apply (anti_symm String.le).
Qed.

Lemma glob_whl_on_perm h l1 l2 : l1 ≡ₚ l2 → glob_whl_on h l1 ≡ₚ glob_whl_on h l2.
Proof. intros H. unfold glob_whl_on. by rewrite H. Qed.

Lemma glob_whl_on_NoDup h l :
  NoDup (normcase h <$> l) → NoDup (normcase h <$> glob_whl_on h l).
Proof.
  intros Hnd. eapply sublist_NoDup; [exact Hnd|].
  apply fmap_sublist, sublist_filter.
Qed.

(** On a POSIX host the model is [_filter_wheels] as given before. *)
Lemma filter_wheels_on_Posix self listing :
  _filter_wheels_on Posix self listing = _filter_wheels self listing.
Proof. reflexivity. Qed.

Lemma update_manifest_on_Posix self platforms listing manifest :
  update_manifest_on Posix self platforms listing manifest
  = update_manifest self platforms listing manifest.
Proof. reflexivity. Qed.

Section filter.
Context (h : host) (self : ExtensionBuilder).

Local Abbreviation excluded w :=
  (Is_true (should_exclude (excluded_packages self) w)).

Lemma filter_wheels_on_run listing :
  NoDup listing →
  _filter_wheels_on h self listing
  = (Ok (filter (λ w, ¬ excluded w) (sort_paths h (glob_whl_on h listing))),
     filter (λ n, ¬ (Is_true (endswith ".whl" (normcase h n)) ∧ excluded n))
       listing).
Proof.
  intros Hnd. unfold _filter_wheels_on.
  rewrite unlink_all_ok.
  - f_equal. apply filter_ext_in. intros n Hn.
    rewrite list_elem_of_filter, sort_paths_perm.
    unfold glob_whl_on. rewrite list_elem_of_filter. tauto.
  - apply NoDup_filter. rewrite sort_paths_perm.
    by apply NoDup_filter.
  - intros w [_ Hw]%list_elem_of_filter.
    rewrite sort_paths_perm in Hw.
    by apply list_elem_of_filter in Hw as [_ Hw].
Qed.
End filter.

(** On a Windows host the wheels of three packages come back as click,
    Jinja2, PyYAML.  That is the order of the lower-cased names; by the
    names themselves [J] and [P] come before [c], as they do on a POSIX
    host.  Neither the returned list nor the list of [./wheels/] paths is
    in lexicographic order of file name. *)
Lemma filter_wheels_windows_not_lexicographic :
  (_filter_wheels_on Windows temp_builder mixed_case_wheels).1
  = Ok ["click-8.1.7-py3-none-any.whl";
        "Jinja2-3.1.2-py3-none-any.whl";
        "PyYAML-6.0.1-cp311-cp311-win_amd64.whl"]
  ∧ ¬ Sorted String.le
        ["click-8.1.7-py3-none-any.whl";
         "Jinja2-3.1.2-py3-none-any.whl";
         "PyYAML-6.0.1-cp311-cp311-win_amd64.whl"]
  ∧ ¬ Sorted String.le
        (wheel_paths ["click-8.1.7-py3-none-any.whl";
                      "Jinja2-3.1.2-py3-none-any.whl";
                      "PyYAML-6.0.1-cp311-cp311-win_amd64.whl"])
  ∧ (_filter_wheels_on Posix temp_builder mixed_case_wheels).1
    = Ok ["Jinja2-3.1.2-py3-none-any.whl";
          "PyYAML-6.0.1-cp311-cp311-win_amd64.whl";
          "click-8.1.7-py3-none-any.whl"].
Proof.
  split; [vm_compute; reflexivity|].
  split; [by_decide|]. split; [by_decide|]. vm_compute. reflexivity.
Qed.

(** C10, amended.  On a wheels directory whose names the host tells apart,
    the list that [_filter_wheels] returns is in ascending order as the
    host compares paths: by file name on a POSIX host, by lower-cased file
    name on a Windows host.  So is the list of paths that
    [update_manifest] binds to [wheels].  On either host both lists, and
    the text written to the manifest, are the same for every order in
    which the directory enumerates its entries. *)
Theorem filter_wheels_sorted_on_host
    (h : host) (self : ExtensionBuilder) (listing : list string) :
  NoDup (normcase h <$> listing) →
  ∃ kept remaining,
    _filter_wheels_on h self listing = (Ok kept, remaining)
    ∧ StronglySorted (λ a b, String.le (normcase h a) (normcase h b)) kept
    ∧ StronglySorted (λ a b, String.le (normcase h a) (normcase h b))
        (wheel_paths kept)
    ∧ (h = Posix →
       _filter_wheels self listing = (Ok kept, remaining)
       ∧ StronglySorted String.le kept
       ∧ StronglySorted String.le (wheel_paths kept))
    ∧ (∀ listing', listing' ≡ₚ listing →
         (_filter_wheels_on h self listing').1 = Ok kept)
    ∧ (∀ platforms platform_objects manifest listing',
         call (get_platforms platforms) = Ok platform_objects →
         listing' ≡ₚ listing →
         let doc := updated_document platform_objects kept manifest in
         (update_manifest_on h self platforms listing' manifest).1
         = Ok (format_arrays (dumps doc))
         ∧ doc_get doc "wheels" = Some (TArray (wheel_paths kept))).
Proof.
  intros Hcase. assert (NoDup listing) as Hnd by by eapply NoDup_fmap_1.
  assert (StronglySorted (path_le h)
            (filter (λ w, ¬ Is_true (should_exclude (excluded_packages self) w))
               (sort_paths h (glob_whl_on h listing)))) as Hsorted
    by apply StronglySorted_filter, sort_paths_sorted.
  assert (StronglySorted (path_le h)
            (wheel_paths
               (filter (λ w, ¬ Is_true (should_exclude
                                          (excluded_packages self) w))
                  (sort_paths h (glob_whl_on h listing))))) as Hpaths.
  { eapply StronglySorted_fmap; [|exact Hsorted].
    intros x y. apply path_le_wheel_path. }
  eexists _, _. split; [by apply filter_wheels_on_run|].
  split; [exact Hsorted|]. split; [exact Hpaths|]. split.
  { intros ->. split; [|split].
    - rewrite <-filter_wheels_on_Posix. by apply filter_wheels_on_run.
    - exact Hsorted.
    - exact Hpaths. }
  assert (∀ listing', listing' ≡ₚ listing →
            NoDup listing'
            ∧ sort_paths h (glob_whl_on h listing')
              = sort_paths h (glob_whl_on h listing)) as Hperm.
  { intros listing' H. split; [by rewrite H|].
    symmetry. apply sort_paths_order_independent.
    - by apply glob_whl_on_NoDup.
    - by apply glob_whl_on_perm. }
  split.
  - intros listing' [Hnd' Heq]%Hperm.
    by rewrite filter_wheels_on_run, Heq.
  - intros platforms platform_objects manifest listing' Hp
      [Hnd' Heq]%Hperm doc. split.
    + unfold update_manifest_on.
      by rewrite Hp, filter_wheels_on_run, Heq.
    + apply updated_document_wheels.
Qed.

Lemma filter_wheels_sorted_on_host_witness :
  NoDup (normcase Windows <$> mixed_case_wheels)
  ∧ (_filter_wheels_on Windows temp_builder mixed_case_wheels).1
    = Ok ["click-8.1.7-py3-none-any.whl";
          "Jinja2-3.1.2-py3-none-any.whl";
          "PyYAML-6.0.1-cp311-cp311-win_amd64.whl"]
  ∧ (_filter_wheels_on Windows temp_builder (reverse mixed_case_wheels)).1
    = (_filter_wheels_on Windows temp_builder mixed_case_wheels).1
  ∧ NoDup (normcase Posix <$> three_wheels)
  ∧ (_filter_wheels temp_builder three_wheels).1
    = Ok ["click-8.1.7-py3-none-any.whl"; "rich-13.7.0-py3-none-any.whl"]
  ∧ Sorted String.le
      ["click-8.1.7-py3-none-any.whl"; "rich-13.7.0-py3-none-any.whl"].
Proof.
  assert (NoDup (normcase Windows <$> mixed_case_wheels)) as Hw by by_decide.
  assert (NoDup (normcase Posix <$> three_wheels)) as Hp by by_decide.
  destruct (filter_wheels_sorted_on_host Windows temp_builder
              mixed_case_wheels Hw)
    as (kept & remaining & Hrun & _ & _ & _ & Hperm & _).
  destruct (filter_wheels_sorted_on_host Posix temp_builder three_wheels Hp)
    as (kept' & remaining' & _ & _ & _ & Hposix & _).
  destruct (Hposix eq_refl) as (Hrun' & Hsorted' & _).
  split; [done|]. split; [vm_compute; reflexivity|]. split.
  { rewrite (Hperm (reverse mixed_case_wheels)) by apply reverse_Permutation.
    by rewrite Hrun. }
  split; [done|].
  assert (kept' = ["click-8.1.7-py3-none-any.whl";
                   "rich-13.7.0-py3-none-any.whl"]) as Hk.
  { assert (Ok kept' = (_filter_wheels temp_builder three_wheels).1) as Hk
      by by rewrite Hrun'.
    vm_compute in Hk. by injection Hk. }
  split.
  - by rewrite Hrun', Hk.
  - rewrite <-Hk. by apply StronglySorted_Sorted.
Defined.

End HostOrder.
